(** * Progetto: qualita' dell'aria a Milano

    A shallow embedding of [src/progetto.py]: the loading / cleaning /
    joining pipeline [prepara_dati] and the three aggregate views computed by
    [avvia_app] (annual means with their trend, the ranking of the most
    polluted stations, the detail of one station in the last year).

    Conventions.
    - A DataFrame is the list of its rows, in index order; a Series produced
      by [groupby(..).mean()] is the list of its (index, value) pairs.
    - A [float64] that is not NaN is a value of the type [float64] below (a
      finite value, as the rational it denotes, or an infinity); NaN / None
      is [None] in an [option].  Comparisons of floats are computed; their
      arithmetic ([Series.mean()], the subtraction of the trend) rounds, and
      is a field of the class [Pandas] like the other library functions.
    - A pandas [Timestamp] is its integer value [Z] (nanoseconds since the
      epoch); [NaT] is [None].
    - What pandas and Python do when they read a string (a float, an integer,
      a date) is not re-implemented: the readers are the fields of the class
      [Pandas], and every result holds for all of them.
    - A Python exception is a value [Err e] of the type [esito]; Streamlit
      warnings are collected in a list, in the order they are emitted. *)

From Stdlib Require Import List String Ascii Bool ZArith QArith Lia.
From Stdlib Require Import Sorting.Sorted Sorting.Permutation.
From Stdlib Require Import Structures.OrderedTypeEx.
Import ListNotations.

Local Open Scope string_scope.
Local Open Scope list_scope.

(* ================================================================= *)
(** ** Exceptions *)

Inductive Errore : Type :=
| ValueError (msg : string)
| KeyError (chiave : string)
| FileNotFoundError (file : string)
| DateParseError (testo : string)
| IntCastError.

Inductive esito (A : Type) : Type :=
| Ok (a : A)
| Err (e : Errore).

Arguments Ok {A} a.
Arguments Err {A} e.

Definition bind {A B : Type} (x : esito A) (k : A -> esito B) : esito B :=
  match x with
  | Ok a => k a
  | Err e => Err e
  end.

Notation "x <- c ;; k" := (bind c (fun x => k))
  (at level 61, c at next level, right associativity).

(** A Python loop (or comprehension) whose body may raise: the first
    exception stops it. *)
Fixpoint mapM {A B : Type} (f : A -> esito B) (l : list A) : esito (list B) :=
  match l with
  | [] => Ok []
  | a :: l' => b <- f a ;; bs <- mapM f l' ;; Ok (b :: bs)
  end.

(** The rows kept by a filter that also converts them. *)
Fixpoint omap {A B : Type} (f : A -> option B) (l : list A) : list B :=
  match l with
  | [] => []
  | a :: l' =>
      match f a with
      | Some b => b :: omap f l'
      | None => omap f l'
      end
  end.

(* ================================================================= *)
(** ** Sorting and grouping as pandas does them *)

(** [sort_values]: the rows in ascending order of [leb].  numpy's default
    sort leaves the order of equal keys open; this model keeps them in index
    order, and the theorems below only use that the result is a sorted
    permutation. *)
Fixpoint inserisci {A : Type} (leb : A -> A -> bool) (x : A) (l : list A)
  : list A :=
  match l with
  | [] => [x]
  | y :: l' => if leb x y then x :: l else y :: inserisci leb x l'
  end.

Definition ordina {A : Type} (leb : A -> A -> bool) (l : list A) : list A :=
  fold_right (inserisci leb) [] l.

(** The distinct group keys in ascending order ([groupby] has [sort=True]). *)
Fixpoint inserisci_chiave {K : Type} (cmp : K -> K -> comparison) (k : K)
  (l : list K) : list K :=
  match l with
  | [] => [k]
  | k' :: l' =>
      match cmp k k' with
      | Lt => k :: l
      | Eq => l
      | Gt => k' :: inserisci_chiave cmp k l'
      end
  end.

Definition chiavi {K : Type} (cmp : K -> K -> comparison) (ks : list K)
  : list K :=
  fold_right (inserisci_chiave cmp) [] ks.

Definition ha_chiave {K : Type} (cmp : K -> K -> comparison) (k : K)
  (c : option K) : bool :=
  match c with
  | Some k' => match cmp k' k with Eq => true | _ => false end
  | None => false
  end.

(** [df.groupby(chiave)[valore].mean()]: one entry per distinct key, keys
    ascending; rows whose key is missing (NaN) belong to no group.  [mean] is
    what pandas computes on the values of one group, taken in the order of
    the rows. *)
Definition groupby_mean {R K V M : Type} (cmp : K -> K -> comparison)
  (chiave : R -> option K) (val : R -> V) (mean : list V -> M) (df : list R)
  : list (K * M) :=
  map (fun k => (k, mean (map val (filter (fun r => ha_chiave cmp k (chiave r)) df))))
      (chiavi cmp (omap chiave df)).

(* ================================================================= *)
(** ** Floating-point values *)

(** A [float64] that is not NaN: a finite value, given by the rational it
    denotes, or an infinity.  The two zeros are not told apart. *)
Inductive float64 : Type :=
| Finito (q : Q)
| Infinito (negativo : bool).

(** [a <= b] and [a < b] on floats that are not NaN. *)
Definition float_leb (a b : float64) : bool :=
  match a, b with
  | Infinito true, _ => true
  | _, Infinito false => true
  | Finito x, Finito y => Qle_bool x y
  | _, _ => false
  end.

Definition float_ltb (a b : float64) : bool := negb (float_leb b a).

(** [a < b] on floats: a comparison with NaN is false. *)
Definition nan_ltb (a b : option float64) : bool :=
  match a, b with
  | Some x, Some y => float_ltb x y
  | _, _ => false
  end.

(* ================================================================= *)
(** ** Data model *)

(** A JSON scalar as [json.load] returns it. *)
Inductive cella : Type :=
| Nullo
| Numero (q : Q)
| Testo (s : string).

(** One record of a yearly file [ariaNN.json]. *)
Record Grezza : Type := {
  g_inquinante : string;
  g_stazione_id : cella;
  g_data : option string;
  g_valore : cella
}.

(** A row after the cleaning step (lines 69-72). *)
Record Misura : Type := {
  m_inquinante : string;
  m_stazione_id : cella;
  m_data : option Z;
  m_anno : option Z;
  m_valore : float64
}.

(** The [properties] of one feature of [dati_milano.json]. *)
Record Feature : Type := {
  id_amat : cella;
  nome : string
}.

(** A row of [df_stazioni]. *)
Record Stazione : Type := {
  s_stazione_id : Z;
  s_nome_stazione : string
}.

(** A row of [df_completo]. *)
Record Riga : Type := {
  inquinante : string;
  stazione_id : Z;
  data : option Z;
  anno : option Z;
  valore : float64;
  nome_stazione : string
}.

(** The files the program reads. *)
Record Disco : Type := {
  file_annuale : string -> option (list Grezza);
  file_stazioni : option (list Feature)
}.

(* ================================================================= *)
(** ** Library readers *)

(** What [pd.to_datetime] makes of one string. *)
Inductive LetturaData : Type :=
| Istante (t : Z)
| NaT
| NonValida.

Class Pandas : Type := {
  (** [float(s)] as [pd.to_numeric] tries it; [None] is a failure, coerced
      to NaN *)
  parse_float : string -> option float64;
  (** the number that the column ["valore"] holds for a JSON number *)
  float_di_numero : Q -> float64;
  (** [Series.mean()] on the values of one group, none of them NaN; [None]
      is NaN *)
  series_mean : list float64 -> option float64;
  (** [a - b] on floats that are not NaN; [None] is NaN *)
  float_sub : float64 -> float64 -> option float64;
  (** the date parser behind [pd.to_datetime] *)
  parse_datetime : string -> LetturaData;
  (** [int(s)] *)
  parse_int : string -> option Z;
  (** [Timestamp.year] *)
  anno_di : Z -> Z
}.

(** Truncation towards zero, as [int(x)] does on a float. *)
Definition tronca (q : Q) : Z := Z.quot (Qnum q) (Zpos (Qden q)).

Section Letture.
Context `{Pandas}.

(** [pd.to_numeric(.., errors="coerce")] on one cell (line 69). *)
Definition to_numeric (c : cella) : option float64 :=
  match c with
  | Nullo => None
  | Numero q => Some (float_di_numero q)
  | Testo s => parse_float s
  end.

(** [pd.to_datetime(..)] on one cell, with the default [errors="raise"]
    (line 70).  [parse_datetime] stands for the parser with the format that
    pandas settles on for the column of one run. *)
Definition to_datetime (c : option string) : esito (option Z) :=
  match c with
  | None => Ok None
  | Some s =>
      match parse_datetime s with
      | Istante t => Ok (Some t)
      | NaT => Ok None
      | NonValida => Err (DateParseError s)
      end
  end.

(** [.astype(int)] on one cell (line 87), as Python's [int] does it.  The
    storage of the column as [int64] or [float64] is not modelled: it can
    only matter for identifiers beyond 2^53 in size. *)
Definition astype_int (c : cella) : esito Z :=
  match c with
  | Nullo => Err IntCastError
  | Numero q => Ok (tronca q)
  | Testo s =>
      match parse_int s with
      | Some z => Ok z
      | None => Err IntCastError
      end
  end.

(** Python's [int(..)] (line 79). *)
Definition py_int (c : cella) : esito Z :=
  match c with
  | Nullo => Err IntCastError
  | Numero q => Ok (tronca q)
  | Testo s =>
      match parse_int s with
      | Some z => Ok z
      | None => Err IntCastError
      end
  end.
End Letture.

(* ================================================================= *)
(** ** [prepara_dati] *)

(** The nine yearly files (lines 50-54). *)
Definition file_json_annuali : list string :=
  [ "aria15.json"; "aria16.json"; "aria17.json";
    "aria18.json"; "aria19.json"; "aria20.json";
    "aria23.json"; "aria24.json"; "aria25.json" ].

(** The text of [st.warning] at line 64. *)
Definition avviso_mancante (file_name : string) : string :=
  "Attenzione: " ++ file_name ++ " non trovato!".

(** The loop of lines 58-64: the warnings emitted and [lista_dati], both in
    the order of the file list.  A file that is not there raises
    [FileNotFoundError], which the loop catches. *)
Fixpoint leggi_annuali (d : Disco) (files : list string)
  : list string * list (list Grezza) :=
  match files with
  | [] => ([], [])
  | file_name :: resto =>
      let '(avvisi, lista_dati) := leggi_annuali d resto in
      match file_annuale d file_name with
      | Some contenuto => (avvisi, contenuto :: lista_dati)
      | None => (avviso_mancante file_name :: avvisi, lista_dati)
      end
  end.

(** [pd.concat(lista_dati, ignore_index=True)] (line 66): pandas refuses an
    empty list of frames. *)
Definition pd_concat {A : Type} (lista_dati : list (list A)) : esito (list A) :=
  match lista_dati with
  | [] => Err (ValueError "No objects to concatenate")
  | _ => Ok (List.concat lista_dati)
  end.

Section Pipeline.
Context `{Pandas}.

(** Lines 69-72 on one row: the date is read first and may raise; a value
    that is not a number becomes NaN and the row is dropped by [dropna]. *)
Definition pulisci_riga (g : Grezza) : esito (option Misura) :=
  d <- to_datetime (g_data g) ;;
  Ok (match to_numeric (g_valore g) with
      | Some v =>
          Some {| m_inquinante := g_inquinante g;
                  m_stazione_id := g_stazione_id g;
                  m_data := d;
                  m_anno := option_map anno_di d;
                  m_valore := v |}
      | None => None
      end).

(** Lines 69-72.  A frame without rows has no column ["valore"]. *)
Definition pulizia (df : list Grezza) : esito (list Misura) :=
  match df with
  | [] => Err (KeyError "valore")
  | _ => righe <- mapM pulisci_riga df ;; Ok (omap (fun r => r) righe)
  end.

(** Lines 75-84: [dati_milano.json] is opened outside any [try]. *)
Definition leggi_stazioni (d : Disco) : esito (list Stazione) :=
  match file_stazioni d with
  | None => Err (FileNotFoundError "dati_milano.json")
  | Some features =>
      mapM (fun feat =>
              i <- py_int (id_amat feat) ;;
              Ok {| s_stazione_id := i; s_nome_stazione := nome feat |})
           features
  end.

(** Line 87. *)
Definition tipizza (df : list Misura) : esito (list (Misura * Z)) :=
  mapM (fun m => i <- astype_int (m_stazione_id m) ;; Ok (m, i)) df.
End Pipeline.

Definition unisci (m : Misura) (i : Z) (s : Stazione) : Riga :=
  {| inquinante := m_inquinante m;
     stazione_id := i;
     data := m_data m;
     anno := m_anno m;
     valore := m_valore m;
     nome_stazione := s_nome_stazione s |}.

Definition corrispondenti (i : Z) (stazioni : list Stazione) : list Stazione :=
  filter (fun s => Z.eqb (s_stazione_id s) i) stazioni.

(** The rows of [pd.merge(df, df_stazioni, on="stazione_id")]: an inner
    join, in the order of the left frame. *)
Definition righe_unite (df : list (Misura * Z)) (stazioni : list Stazione)
  : list Riga :=
  flat_map (fun mi => map (unisci (fst mi) (snd mi))
                          (corrispondenti (snd mi) stazioni)) df.

(** Line 88.  A station frame built from no feature has no column
    ["stazione_id"]. *)
Definition pd_merge (df : list (Misura * Z)) (stazioni : list Stazione)
  : esito (list Riga) :=
  match stazioni with
  | [] => Err (KeyError "stazione_id")
  | _ => Ok (righe_unite df stazioni)
  end.

Section Prepara.
Context `{Pandas}.

(** Lines 68-90, on the concatenated frame. *)
Definition pulisci_e_unisci (d : Disco) (df : list Grezza) : esito (list Riga) :=
  pulite <- pulizia df ;;
  stazioni <- leggi_stazioni d ;;
  tipizzate <- tipizza pulite ;;
  pd_merge tipizzate stazioni.

(** Lines 56-66. *)
Definition carica (files : list string) (d : Disco)
  : list string * esito (list Grezza) :=
  let '(avvisi, lista_dati) := leggi_annuali d files in
  (avvisi, pd_concat lista_dati).

(** [prepara_dati] for a given list of yearly files: the warnings shown and
    the table returned, or the exception that ends the run. *)
Definition prepara_dati_da (files : list string) (d : Disco)
  : list string * esito (list Riga) :=
  let '(avvisi, caricati) := carica files d in
  (avvisi, df <- caricati ;; pulisci_e_unisci d df).

Definition prepara_dati (d : Disco) : list string * esito (list Riga) :=
  prepara_dati_da file_json_annuali d.
End Prepara.

(* ================================================================= *)
(** ** [avvia_app]: the three views *)

(** [df[df["inquinante"] == inquinante]] (lines 116 and 143). *)
Definition del_inquinante (inq : string) (df : list Riga) : list Riga :=
  filter (fun r => String.eqb (inquinante r) inq) df.

(** [delta < 0] (line 134): false when [delta] is NaN. *)
Definition negativo (d : option float64) : bool :=
  nan_ltb d (Some (Finito 0)).

(** [sort_values(ascending=False)]: larger means first, NaN last. *)
Definition media_decrescente (a b : string * option float64) : bool :=
  match snd a, snd b with
  | Some x, Some y => float_leb y x
  | Some _, None => true
  | None, Some _ => false
  | None, None => true
  end.

Section Viste.
Context `{Pandas}.

(** Lines 115-119. *)
Definition media_annuale (df : list Riga) (inq : string)
  : list (Z * option float64) :=
  groupby_mean Z.compare anno valore series_mean (del_inquinante inq df).

(** A subtraction of floats: NaN when an operand is. *)
Definition sottrai (a b : option float64) : option float64 :=
  match a, b with
  | Some x, Some y => float_sub x y
  | _, _ => None
  end.

(** [media_annuale.iloc[-1] - media_annuale.iloc[0]] (line 133). *)
Definition delta (ma : list (Z * option float64)) : option float64 :=
  sottrai (List.last (map snd ma) None) (List.hd None (map snd ma)).

(** Lines 132-135: the word written in the note, if a note is written. *)
Definition trend (ma : list (Z * option float64)) : option string :=
  if (1 <? List.length ma)%nat
  then Some (if negativo (delta ma) then "diminuito" else "aumentato")
  else None.

(** Lines 142-148. *)
Definition media_stazioni (df : list Riga) (inq : string)
  : list (string * option float64) :=
  firstn 5
    (ordina media_decrescente
       (groupby_mean String.compare (fun r => Some (nome_stazione r)) valore
          series_mean (del_inquinante inq df))).
End Viste.

(** [Series.max()]: missing entries are skipped, and the maximum of nothing
    is NaN. *)
Definition massimo (l : list Z) : option Z :=
  match l with
  | [] => None
  | x :: l' => Some (fold_left Z.max l' x)
  end.

(** Line 171. *)
Definition anno_corrente (df : list Riga) : option Z :=
  massimo (omap anno df).

(** [df["anno"] == anno_corrente] on one row: NaN equals nothing. *)
Definition stesso_anno (a c : option Z) : bool :=
  match a, c with
  | Some x, Some y => Z.eqb x y
  | _, _ => false
  end.

(** The mask of lines 174-176. *)
Definition selezionata (stazione inq : string) (ac : option Z) (r : Riga) : bool :=
  String.eqb (nome_stazione r) stazione
  && String.eqb (inquinante r) inq
  && stesso_anno (anno r) ac.

(** Ascending dates, [NaT] last. *)
Definition data_leb (a b : option Z) : bool :=
  match a, b with
  | Some x, Some y => Z.leb x y
  | Some _, None => true
  | None, Some _ => false
  | None, None => true
  end.

Definition prima_per_data (a b : Riga) : bool := data_leb (data a) (data b).

(** Lines 173-177. *)
Definition df_focus (df : list Riga) (stazione inq : string) : list Riga :=
  ordina prima_per_data (filter (selezionata stazione inq (anno_corrente df)) df).

(** What lines 179-191 put on the page. *)
Inductive Dettaglio : Type :=
| Grafico (serie : list (option Z * float64)) (info : string)
| NessunDato (avviso : string).

Definition dettaglio (df : list Riga) (stazione inq : string) : Dettaglio :=
  match df_focus df stazione inq with
  | [] => NessunDato "Nessun dato disponibile per la selezione effettuata."
  | focus =>
      Grafico (map (fun r => (data r, valore r)) focus)
        "Il grafico evidenzia picchi e variazioni stagionali dell’inquinante selezionato."
  end.

(** Line 106: [sorted(df["inquinante"].unique())], the pollutants offered in
    the sidebar. *)
Definition lista_inquinanti (df : list Riga) : list string :=
  chiavi String.compare (map inquinante df).

(** Line 168: [sorted(df["nome_stazione"].unique())], the stations offered
    for the detail. *)
Definition lista_stazioni (df : list Riga) : list string :=
  chiavi String.compare (map nome_stazione df).

(* ================================================================= *)
(** ** A small instance of the readers

    Enough of [float], [int] and the date parser to run the program on
    concrete files: unsigned decimal integers, and dates written
    [YYYY-MM-DD] (the empty string reads as [NaT], as in pandas). *)

Module Esempio.

Definition cifra (c : ascii) : option Z :=
  let n := Z.of_N (N_of_ascii c) in
  if ((48 <=? n) && (n <=? 57))%Z then Some (n - 48)%Z else None.

Fixpoint leggi_cifre (acc : Z) (s : string) : option Z :=
  match s with
  | EmptyString => Some acc
  | String c s' =>
      match cifra c with
      | Some d => leggi_cifre (10 * acc + d)%Z s'
      | None => None
      end
  end.

Definition leggi_intero (s : string) : option Z :=
  match s with
  | EmptyString => None
  | _ => leggi_cifre 0 s
  end.

(** Days since 1970-01-01 of a civil date, and back to the year. *)
Definition giorni_da_civile (y m d : Z) : Z :=
  (let y := if m <=? 2 then y - 1 else y in
   let era := y / 400 in
   let yoe := y - era * 400 in
   let doy := (153 * (if 2 <? m then m - 3 else m + 9) + 2) / 5 + d - 1 in
   let doe := yoe * 365 + yoe / 4 - yoe / 100 + doy in
   era * 146097 + doe - 719468)%Z.

Definition anno_da_giorni (z : Z) : Z :=
  (let z := z + 719468 in
   let era := z / 146097 in
   let doe := z - era * 146097 in
   let yoe := (doe - doe / 1460 + doe / 36524 - doe / 146096) / 365 in
   let doy := doe - (365 * yoe + yoe / 4 - yoe / 100) in
   let mp := (5 * doy + 2) / 153 in
   let m := if mp <? 10 then mp + 3 else mp - 9 in
   yoe + era * 400 + (if m <=? 2 then 1 else 0))%Z.

Definition ns_al_giorno : Z := 86400000000000.

Definition leggi_data (s : string) : LetturaData :=
  match s with
  | EmptyString => NaT
  | _ =>
      match leggi_intero (substring 0 4 s), leggi_intero (substring 5 2 s),
            leggi_intero (substring 8 2 s) with
      | Some y, Some m, Some d =>
          if (String.length s =? 10)%nat
             && String.eqb (substring 4 1 s) "-"
             && String.eqb (substring 7 1 s) "-"
             && ((1 <=? m) && (m <=? 12) && (1 <=? d) && (d <=? 31))%Z
          then Istante (giorni_da_civile y m d * ns_al_giorno)
          else NonValida
      | _, _, _ => NonValida
      end
  end.

(** Arithmetic without rounding, which is what [float64] arithmetic gives on
    the small integers of the examples; infinities are left out. *)
Fixpoint somma_finiti (l : list float64) : option Q :=
  match l with
  | [] => Some 0%Q
  | Finito q :: l' => option_map (Qplus q) (somma_finiti l')
  | Infinito _ :: _ => None
  end.

Definition media_esatta (l : list float64) : option float64 :=
  option_map
    (fun s => Finito (Qred (s / inject_Z (Z.of_nat (List.length l)))))
    (somma_finiti l).

Definition differenza_esatta (a b : float64) : option float64 :=
  match a, b with
  | Finito x, Finito y => Some (Finito (Qred (x - y)))
  | _, _ => None
  end.

#[export] Instance lettori : Pandas := {|
  parse_float := fun s => option_map (fun z => Finito (inject_Z z)) (leggi_intero s);
  float_di_numero := Finito;
  series_mean := media_esatta;
  float_sub := differenza_esatta;
  parse_datetime := leggi_data;
  parse_int := leggi_intero;
  anno_di := fun t => anno_da_giorni (t / ns_al_giorno)
|}.

Definition grezza (inq : string) (id : Z) (quando valore : string) : Grezza :=
  {| g_inquinante := inq;
     g_stazione_id := Numero (inject_Z id);
     g_data := Some quando;
     g_valore := Testo valore |}.

(** Two yearly files are there, the other seven are not. *)
Definition disco : Disco :=
  {| file_annuale := fun f =>
       if String.eqb f "aria20.json" then
         Some [ grezza "PM10" 1 "2020-01-15" "30";
                grezza "PM10" 2 "2020-02-01" "50";
                grezza "PM10" 1 "2020-03-01" "n.d.";
                grezza "NO2" 1 "2020-01-15" "12" ]
       else if String.eqb f "aria23.json" then
         Some [ grezza "PM10" 1 "2023-01-10" "20";
                grezza "PM10" 9 "2023-01-11" "99";
                grezza "PM10" 1 "2023-01-05" "10" ]
       else None;
     file_stazioni :=
       Some [ {| id_amat := Testo "1"; nome := "Verziere" |};
              {| id_amat := Numero 2; nome := "Senato" |} ] |}.

(** No yearly file is there. *)
Definition disco_senza_annuali : Disco :=
  {| file_annuale := fun _ => None;
     file_stazioni := file_stazioni disco |}.

(** One cleaned PM10 measurement, and station tables to join it with. *)
Definition misura_pm10 : Misura :=
  {| m_inquinante := "PM10"; m_stazione_id := Numero 1;
     m_data := None; m_anno := None; m_valore := Finito 30 |}.

Definition verziere : Stazione :=
  {| s_stazione_id := 1; s_nome_stazione := "Verziere" |}.

Definition verziere_bis : Stazione :=
  {| s_stazione_id := 1; s_nome_stazione := "Verziere bis" |}.

(** A record whose timestamp is the JSON [null]. *)
Definition grezza_senza_data : Grezza :=
  {| g_inquinante := "PM10"; g_stazione_id := Numero 1;
     g_data := None; g_valore := Numero 30 |}.

(** A yearly file with a timestamp that is not a date. *)
Definition con_data_illeggibile : list Grezza :=
  [ grezza "PM10" 1 "2020-01-15" "30"; grezza "PM10" 1 "ieri" "30" ].

(** [disco] without the station file. *)
Definition disco_senza_stazioni : Disco :=
  {| file_annuale := file_annuale disco; file_stazioni := None |}.

(** One yearly file, given by its records, and the stations of [disco]. *)
Definition disco_con (righe : list Grezza) : Disco :=
  {| file_annuale := fun f =>
       if String.eqb f "aria20.json" then Some righe else None;
     file_stazioni := file_stazioni disco |}.

(** A record with a numeric value and a station identifier that is no
    integer. *)
Definition grezza_id_testo : Grezza :=
  {| g_inquinante := "PM10"; g_stazione_id := Testo "uno";
     g_data := Some "2020-01-15"; g_valore := Numero 30 |}.

(** A row of the unified table without timestamp and year. *)
Definition riga_senza_anno : Riga :=
  {| inquinante := "PM10"; stazione_id := 1; data := None; anno := None;
     valore := Finito 40; nome_stazione := "Verziere" |}.

(** The station table read from [disco]. *)
Definition stazioni_di_disco : list Stazione :=
  [ verziere; {| s_stazione_id := 2; s_nome_stazione := "Senato" |} ].

(** The table [prepara_dati] returns on [disco]. *)
Definition tabella : list Riga :=
  match snd (prepara_dati disco) with
  | Ok df => df
  | Err _ => []
  end.

End Esempio.

(* ================================================================= *)
(** ** Selections used to state the properties *)

(** The rows of one pollutant in one year. *)
Definition dell_anno (inq : string) (y : Z) (r : Riga) : bool :=
  String.eqb (inquinante r) inq && stesso_anno (anno r) (Some y).

(** The rows of one pollutant at one station. *)
Definition della_stazione (inq nome : string) (r : Riga) : bool :=
  String.eqb (inquinante r) inq && String.eqb (nome_stazione r) nome.

(** The yearly file is not on disk. *)
Definition mancante (d : Disco) (file_name : string) : bool :=
  match file_annuale d file_name with
  | None => true
  | Some _ => false
  end.

(** The rows of the yearly files that are on disk, file after file in the
    order of the list. *)
Definition righe_disponibili (d : Disco) (files : list string) : list Grezza :=
  List.concat (omap (file_annuale d) files).

(** The station has the identifier of the measurement. *)
Definition ha_stazione (stazioni : list Stazione) (mi : Misura * Z) : bool :=
  existsb (fun s => Z.eqb (s_stazione_id s) (snd mi)) stazioni.

(** The join as the specification words it: it never fails, and it returns
    no more rows than there are measurements. *)
Definition unione_senza_eccezioni (df : list (Misura * Z))
  (stazioni : list Stazione) : Prop :=
  exists tbl, pd_merge df stazioni = Ok tbl /\
              (List.length tbl <= List.length df)%nat.

Section Specifica.
Context `{Pandas}.

(** The cleaned row of a raw row, when there is one. *)
Definition normalizza (g : Grezza) : option Misura :=
  match pulisci_riga g with
  | Ok (Some m) => Some m
  | _ => None
  end.

(** The cleaning step as the specification words it for values: a row whose
    value is not a number never makes the run raise. *)
Definition valori_tollerati (df : list Grezza) : Prop :=
  forall g, In g df -> to_numeric (g_valore g) = None ->
            exists out, pulizia df = Ok out.

(** The cleaning step as the specification words it for timestamps: the run
    goes on whatever the timestamps are, and every row it keeps has a valid
    timestamp. *)
Definition date_tollerate (df : list Grezza) : Prop :=
  exists out, pulizia df = Ok out /\
              forall m, In m out -> exists t, m_data m = Some t.
End Specifica.

(** [a <= b] on floats that are not NaN, as a proposition. *)
Definition float_le (a b : float64) : Prop :=
  match a, b with
  | Infinito true, _ => True
  | _, Infinito false => True
  | Finito x, Finito y => (x <= y)%Q
  | _, _ => False
  end.


(** Mean [a] may come before mean [b] in a ranking from the largest to the
    smallest: [b] is not larger than [a], or [b] is NaN. *)
Definition non_crescente (a b : option float64) : Prop :=
  match a, b with
  | Some x, Some y => float_le y x
  | _, None => True
  | None, Some _ => False
  end.

(** Timestamp [a] is not after timestamp [b]; [NaT] comes after every
    instant. *)
Definition non_dopo (a b : option Z) : Prop :=
  match a, b with
  | Some x, Some y => (x <= y)%Z
  | None, Some _ => False
  | _, None => True
  end.

(* ================================================================= *)
(** * Properties *)

(** ** Loops that may raise *)

Lemma mapM_Ok_inv {A B : Type} (f : A -> esito B) (l : list A) (bs : list B) :
  mapM f l = Ok bs -> Forall2 (fun a b => f a = Ok b) l bs.
Proof.
  revert bs; induction l as [|a l IH]; simpl; intros bs E.
  - inversion E; constructor.
  - destruct (f a) as [b|e] eqn:Ea; simpl in E; [|discriminate].
    destruct (mapM f l) as [bs'|e] eqn:El; simpl in E; [|discriminate].
    inversion E; subst; constructor; auto.
Qed.

Lemma mapM_totale {A B : Type} (f : A -> esito B) (l : list A) :
  (forall a, In a l -> exists b, f a = Ok b) -> exists bs, mapM f l = Ok bs.
Proof.
  induction l as [|a l IH]; simpl; intros Hl.
  - eexists; reflexivity.
  - destruct (Hl a (or_introl eq_refl)) as [b ->].
    destruct IH as [bs ->]; [intros; apply Hl; auto|].
    eexists; reflexivity.
Qed.

Lemma mapM_Err_intro {A B : Type} (f : A -> esito B) (l : list A) (a : A) (e : Errore) :
  In a l -> f a = Err e ->
  exists a' e', In a' l /\ f a' = Err e' /\ mapM f l = Err e'.
Proof.
  induction l as [|x l IH]; simpl; intros Hin Ha; [contradiction|].
  destruct (f x) as [b|ex] eqn:Ex; simpl.
  - destruct Hin as [->|Hin]; [congruence|].
    destruct (IH Hin Ha) as (a' & e' & Hin' & Ha' & ->).
    exists a', e'; auto.
  - exists x, ex; auto.
Qed.

Lemma in_omap {A B : Type} (f : A -> option B) (l : list A) (b : B) :
  In b (omap f l) <-> exists a, In a l /\ f a = Some b.
Proof.
  induction l as [|x l IH]; simpl.
  - split; [contradiction | intros (a & [] & _)].
  - destruct (f x) as [b'|] eqn:Ex; simpl; rewrite IH; split.
    + intros [<-|(a & Ha & Hf)]; eauto.
    + intros (a & [->|Ha] & Hf); [left; congruence | eauto].
    + intros (a & Ha & Hf); eauto.
    + intros (a & [->|Ha] & Hf); [congruence | eauto].
Qed.

Lemma omap_app {A B : Type} (f : A -> option B) (l1 l2 : list A) :
  omap f (l1 ++ l2) = omap f l1 ++ omap f l2.
Proof.
  induction l1 as [|x l1 IH]; simpl; [reflexivity|].
  destruct (f x); simpl; rewrite IH; reflexivity.
Qed.

(** ** [sort_values] *)

Section Ordinamento.
Variable A : Type.
Variable leb : A -> A -> bool.

Lemma inserisci_perm (x : A) (l : list A) :
  Permutation (inserisci leb x l) (x :: l).
Proof.
  induction l as [|y l IH]; simpl; [reflexivity|].
  destruct (leb x y); [reflexivity|].
  rewrite IH; apply perm_swap.
Qed.

Lemma ordina_perm (l : list A) : Permutation (ordina leb l) l.
Proof.
  induction l as [|x l IH]; simpl; [constructor|].
  rewrite inserisci_perm; auto.
Qed.

Hypothesis leb_totale : forall a b, leb a b = true \/ leb b a = true.
Hypothesis leb_trans :
  forall a b c, leb a b = true -> leb b c = true -> leb a c = true.

Let in_ordine (a b : A) : Prop := leb a b = true.

Lemma inserisci_ordinata (x : A) (l : list A) :
  StronglySorted in_ordine l -> StronglySorted in_ordine (inserisci leb x l).
Proof.
  induction 1 as [|y l Hs IH Hy]; simpl.
  - repeat constructor.
  - destruct (leb x y) eqn:E.
    + constructor; [constructor; assumption|].
      constructor; [exact E|].
      eapply Forall_impl; [|exact Hy].
      intros z Hz; exact (leb_trans _ _ _ E Hz).
    + constructor; [assumption|].
      apply (Permutation_Forall (Permutation_sym (inserisci_perm x l))).
      constructor; [|assumption].
      destruct (leb_totale x y) as [C|C]; [congruence | exact C].
Qed.

Lemma ordina_ordinata (l : list A) : StronglySorted in_ordine (ordina leb l).
Proof.
  induction l as [|x l IH]; simpl; [constructor|].
  apply inserisci_ordinata; assumption.
Qed.
End Ordinamento.

Lemma in_firstn {A : Type} (n : nat) (l : list A) (a : A) :
  In a (firstn n l) -> In a l.
Proof.
  intros Ha; rewrite <- (firstn_skipn n l); apply in_or_app; auto.
Qed.

Lemma in_skipn {A : Type} (n : nat) (l : list A) (a : A) :
  In a (skipn n l) -> In a l.
Proof.
  intros Ha; rewrite <- (firstn_skipn n l); apply in_or_app; auto.
Qed.

(** In a sorted list, what is cut off by [firstn] comes after what is kept. *)
Lemma firstn_prima_degli_altri {A : Type} (R : A -> A -> Prop) (n : nat)
  (l : list A) (a b : A) :
  StronglySorted R l -> In a (firstn n l) -> In b (skipn n l) -> R a b.
Proof.
  intros Hs; revert n; induction Hs as [|x l Hs IH Hx]; intros n Ha Hb.
  - destruct n; simpl in *; contradiction.
  - destruct n as [|n]; simpl in *; [contradiction|].
    destruct Ha as [<-|Ha].
    + rewrite Forall_forall in Hx; apply Hx.
      apply (in_skipn n); exact Hb.
    + eapply IH; eauto.
Qed.

Lemma firstn_ordinata {A : Type} (R : A -> A -> Prop) (n : nat) (l : list A) :
  StronglySorted R l -> StronglySorted R (firstn n l).
Proof.
  intros Hs; revert n; induction Hs as [|x l Hs IH Hx]; intros [|n]; simpl;
    try constructor; auto.
  rewrite Forall_forall in *; intros y Hy; apply Hx.
  eapply in_firstn; eauto.
Qed.

(** ** [groupby] *)

Section Chiavi.
Variable K : Type.
Variable cmp : K -> K -> comparison.
Hypothesis cmp_eq : forall a b, cmp a b = Eq <-> a = b.
Hypothesis cmp_antisym : forall a b, cmp a b = CompOpp (cmp b a).
Hypothesis cmp_trans : forall a b c, cmp a b = Lt -> cmp b c = Lt -> cmp a c = Lt.

Let minore (a b : K) : Prop := cmp a b = Lt.

Lemma in_inserisci_chiave (k : K) (l : list K) (x : K) :
  In x (inserisci_chiave cmp k l) <-> x = k \/ In x l.
Proof.
  induction l as [|a l IH]; simpl.
  - intuition.
  - destruct (cmp k a) eqn:E; simpl.
    + apply cmp_eq in E; subst; intuition.
    + intuition.
    + rewrite IH; intuition.
Qed.

Lemma in_chiavi (ks : list K) (x : K) : In x (chiavi cmp ks) <-> In x ks.
Proof.
  induction ks as [|k ks IH]; simpl; [tauto|].
  rewrite in_inserisci_chiave, IH; intuition.
Qed.

Lemma inserisci_chiave_ordinata (k : K) (l : list K) :
  StronglySorted minore l -> StronglySorted minore (inserisci_chiave cmp k l).
Proof.
  induction 1 as [|a l Hs IH Ha]; simpl.
  - repeat constructor.
  - destruct (cmp k a) eqn:E.
    + constructor; assumption.
    + constructor; [constructor; assumption|].
      constructor; [exact E|].
      eapply Forall_impl; [|exact Ha].
      intros z Hz; exact (cmp_trans _ _ _ E Hz).
    + constructor; [assumption|].
      rewrite Forall_forall in *; intros x Hx.
      apply in_inserisci_chiave in Hx; destruct Hx as [->|Hx]; [|auto].
      unfold minore; rewrite cmp_antisym, E; reflexivity.
Qed.

Lemma chiavi_ordinate (ks : list K) : StronglySorted minore (chiavi cmp ks).
Proof.
  induction ks as [|k ks IH]; simpl; [constructor|].
  apply inserisci_chiave_ordinata; assumption.
Qed.

Lemma ordinate_senza_ripetizioni (l : list K) :
  StronglySorted minore l -> NoDup l.
Proof.
  induction 1 as [|a l Hs IH Ha]; constructor; [|assumption].
  intros Hin; rewrite Forall_forall in Ha.
  specialize (Ha a Hin); unfold minore in Ha.
  assert (E : cmp a a = Eq) by (apply cmp_eq; reflexivity).
  congruence.
Qed.

Lemma ha_chiave_vera (k : K) (c : option K) :
  ha_chiave cmp k c = true <-> c = Some k.
Proof.
  destruct c as [k'|]; simpl; [|split; discriminate].
  destruct (cmp k' k) eqn:E; split; intros E'; try discriminate.
  - apply cmp_eq in E; congruence.
  - reflexivity.
  - inversion E'; subst; assert (cmp k k = Eq) by (apply cmp_eq; reflexivity); congruence.
  - inversion E'; subst; assert (cmp k k = Eq) by (apply cmp_eq; reflexivity); congruence.
Qed.

Variables R V M : Type.
Variable chiave : R -> option K.
Variable val : R -> V.
Variable mean : list V -> M.

Lemma groupby_mean_chiavi (df : list R) :
  map fst (groupby_mean cmp chiave val mean df) = chiavi cmp (omap chiave df).
Proof.
  unfold groupby_mean; rewrite map_map; simpl; apply map_id.
Qed.

Lemma groupby_mean_ordinato (df : list R) :
  StronglySorted minore (map fst (groupby_mean cmp chiave val mean df)).
Proof. rewrite groupby_mean_chiavi; apply chiavi_ordinate. Qed.

Lemma in_groupby_mean_chiave (df : list R) (k : K) :
  In k (map fst (groupby_mean cmp chiave val mean df)) <->
  exists r, In r df /\ chiave r = Some k.
Proof.
  rewrite groupby_mean_chiavi, in_chiavi, in_omap; reflexivity.
Qed.

Lemma in_groupby_mean (df : list R) (k : K) (m : M) :
  In (k, m) (groupby_mean cmp chiave val mean df) ->
  m = mean (map val (filter (fun r => ha_chiave cmp k (chiave r)) df)).
Proof.
  unfold groupby_mean; rewrite in_map_iff; intros (k' & E & _).
  inversion E; subst; reflexivity.
Qed.
End Chiavi.

Lemma Zcompare_trans (a b c : Z) :
  Z.compare a b = Lt -> Z.compare b c = Lt -> Z.compare a c = Lt.
Proof. rewrite !Z.compare_lt_iff; lia. Qed.

Lemma Scompare_trans (a b c : string) :
  String.compare a b = Lt -> String.compare b c = Lt -> String.compare a c = Lt.
Proof.
  intros Hab Hbc; apply String_as_OT.cmp_lt.
  apply String_as_OT.cmp_lt in Hab, Hbc.
  eapply String_as_OT.lt_trans; eauto.
Qed.

(** ** Floats that are not NaN are totally ordered *)

Lemma float_leb_le (a b : float64) : float_leb a b = true <-> float_le a b.
Proof.
  destruct a as [x|[|]], b as [y|[|]]; simpl;
    rewrite ?Qle_bool_iff; intuition discriminate.
Qed.

Lemma float_leb_totale (a b : float64) :
  float_leb a b = true \/ float_leb b a = true.
Proof.
  destruct a as [x|[|]], b as [y|[|]]; simpl; auto.
  rewrite !Qle_bool_iff.
  destruct (Qlt_le_dec x y) as [Hlt|Hle]; [left; apply Qlt_le_weak; exact Hlt | right; exact Hle].
Qed.

Lemma float_leb_trans (a b c : float64) :
  float_leb a b = true -> float_leb b c = true -> float_leb a c = true.
Proof.
  destruct a as [x|[|]], b as [y|[|]], c as [z|[|]]; simpl; auto;
    try discriminate.
  rewrite !Qle_bool_iff; apply Qle_trans.
Qed.


(** ** Small facts on lists *)

Lemma filter_filter {A : Type} (f g : A -> bool) (l : list A) :
  filter f (filter g l) = filter (fun x => g x && f x) l.
Proof.
  induction l as [|x l IH]; simpl; [reflexivity|].
  destruct (g x); simpl; [destruct (f x)|]; rewrite IH; reflexivity.
Qed.



Lemma stesso_anno_vero (a : option Z) (y : Z) :
  stesso_anno a (Some y) = true <-> a = Some y.
Proof.
  destruct a as [x|]; simpl; [|split; discriminate].
  rewrite Z.eqb_eq; split; congruence.
Qed.

Lemma dell_anno_vero (inq : string) (y : Z) (r : Riga) :
  dell_anno inq y r = true <-> inquinante r = inq /\ anno r = Some y.
Proof.
  unfold dell_anno; rewrite andb_true_iff, String.eqb_eq, stesso_anno_vero.
  reflexivity.
Qed.

Lemma della_stazione_vera (inq n : string) (r : Riga) :
  della_stazione inq n r = true <-> inquinante r = inq /\ nome_stazione r = n.
Proof.
  unfold della_stazione; rewrite andb_true_iff, !String.eqb_eq; reflexivity.
Qed.

Lemma in_del_inquinante (inq : string) (df : list Riga) (r : Riga) :
  In r (del_inquinante inq df) <-> In r df /\ inquinante r = inq.
Proof.
  unfold del_inquinante; rewrite filter_In, String.eqb_eq; reflexivity.
Qed.

(** The group of a year, written as one selection on the whole table. *)
Lemma gruppo_dell_anno (inq : string) (y : Z) (df : list Riga) :
  filter (fun r => ha_chiave Z.compare y (anno r)) (del_inquinante inq df)
  = filter (dell_anno inq y) df.
Proof.
  unfold del_inquinante; rewrite filter_filter.
  apply filter_ext; intros r; unfold dell_anno; f_equal.
  destruct (anno r) as [a|]; simpl; [|reflexivity].
  destruct (Z.compare_spec a y), (Z.eqb_spec a y); try reflexivity; lia.
Qed.

Lemma gruppo_della_stazione (inq n : string) (df : list Riga) :
  filter (fun r => ha_chiave String.compare n (Some (nome_stazione r)))
         (del_inquinante inq df)
  = filter (della_stazione inq n) df.
Proof.
  unfold del_inquinante; rewrite filter_filter.
  apply filter_ext; intros r; unfold della_stazione; f_equal; simpl.
  destruct (String.eqb_spec (nome_stazione r) n) as [->|Hne].
  - assert (E : String.compare n n = Eq) by (apply String_as_OT.cmp_eq; reflexivity).
    rewrite E; reflexivity.
  - destruct (String.compare (nome_stazione r) n) eqn:E; try reflexivity.
    apply String_as_OT.cmp_eq in E; contradiction.
Qed.

Lemma gruppo_non_vuoto {A B : Type} (f : A -> bool) (g : A -> B) (df : list A)
  (r : A) :
  In r df -> f r = true -> map g (filter f df) <> [].
Proof.
  intros Hr Hf E; apply map_eq_nil in E.
  assert (Hin : In r (filter f df)) by (apply filter_In; auto).
  rewrite E in Hin; contradiction.
Qed.

Lemma StronglySorted_impl {A : Type} (R R' : A -> A -> Prop) (l : list A) :
  (forall a b, R a b -> R' a b) -> StronglySorted R l -> StronglySorted R' l.
Proof.
  intros HR; induction 1 as [|x l Hs IH Hx]; constructor; auto.
  eapply Forall_impl; [|exact Hx]; auto.
Qed.

Lemma NoDup_firstn {A : Type} (n : nat) (l : list A) :
  NoDup l -> NoDup (firstn n l).
Proof.
  intros Hl; rewrite <- (firstn_skipn n l) in Hl.
  eapply NoDup_app_remove_r; exact Hl.
Qed.

Lemma in_groupby_mean_intro {R K V M : Type} (cmp : K -> K -> comparison)
  (chiave : R -> option K) (val : R -> V) (mean : list V -> M) (df : list R)
  (k : K) :
  In k (chiavi cmp (omap chiave df)) ->
  In (k, mean (map val (filter (fun r => ha_chiave cmp k (chiave r)) df)))
     (groupby_mean cmp chiave val mean df).
Proof.
  intros Hk; unfold groupby_mean.
  apply (in_map (fun k => (k, mean (map val (filter (fun r => ha_chiave cmp k (chiave r)) df)))));
    exact Hk.
Qed.

Lemma media_decrescente_totale (a b : string * option float64) :
  media_decrescente a b = true \/ media_decrescente b a = true.
Proof.
  unfold media_decrescente; destruct (snd a) as [x|], (snd b) as [y|]; auto.
  destruct (float_leb_totale x y); auto.
Qed.

Lemma media_decrescente_trans (a b c : string * option float64) :
  media_decrescente a b = true -> media_decrescente b c = true ->
  media_decrescente a c = true.
Proof.
  unfold media_decrescente.
  destruct (snd a) as [x|], (snd b) as [y|], (snd c) as [z|]; auto;
    try discriminate.
  intros Hab Hbc; exact (float_leb_trans z y x Hbc Hab).
Qed.

Lemma media_decrescente_non_crescente (a b : string * option float64) :
  media_decrescente a b = true -> non_crescente (snd a) (snd b).
Proof.
  unfold media_decrescente, non_crescente.
  destruct (snd a) as [x|], (snd b) as [y|]; auto; try discriminate.
  apply float_leb_le.
Qed.

Section ProprietaViste.
Context `{Pandas}.

(** ** The annual means *)

Lemma media_annuale_ordinata (df : list Riga) (inq : string) :
  StronglySorted Z.lt (map fst (media_annuale df inq)).
Proof.
  apply (groupby_mean_ordinato Z Z.compare Z.compare_eq_iff
           (fun a b => Z.compare_antisym b a) Zcompare_trans).
Qed.

Lemma anni_di_media_annuale (df : list Riga) (inq : string) (y : Z) :
  In y (map fst (media_annuale df inq)) <->
  exists r, In r df /\ inquinante r = inq /\ anno r = Some y.
Proof.
  unfold media_annuale.
  rewrite (in_groupby_mean_chiave Z Z.compare Z.compare_eq_iff).
  split.
  - intros (r & Hr & Ha); apply in_del_inquinante in Hr; exists r; tauto.
  - intros (r & Hr & Hi & Ha); exists r; rewrite in_del_inquinante; tauto.
Qed.

Lemma in_media_annuale (df : list Riga) (inq : string) (y : Z)
  (m : option float64) :
  In (y, m) (media_annuale df inq) ->
  (exists r, In r df /\ inquinante r = inq /\ anno r = Some y) /\
  m = series_mean (map valore (filter (dell_anno inq y) df)).
Proof.
  intros Hin; split.
  - apply anni_di_media_annuale, in_map_iff; exists (y, m); auto.
  - apply in_groupby_mean in Hin; rewrite gruppo_dell_anno in Hin; exact Hin.
Qed.

Lemma media_annuale_intro (df : list Riga) (inq : string) (y : Z) :
  (exists r, In r df /\ inquinante r = inq /\ anno r = Some y) ->
  In (y, series_mean (map valore (filter (dell_anno inq y) df)))
     (media_annuale df inq).
Proof.
  intros Hy; apply anni_di_media_annuale in Hy.
  unfold media_annuale in *.
  rewrite groupby_mean_chiavi in Hy.
  apply (in_groupby_mean_intro Z.compare anno valore series_mean) in Hy.
  rewrite gruppo_dell_anno in Hy; exact Hy.
Qed.

(** C4.  For a pollutant, the annual means hold one (year, mean) pair for
    each distinct year in which the pollutant has rows, in strictly ascending
    order of year (so no year occurs twice), and the mean of a year is what
    [Series.mean()] gives on the values of exactly the rows of that pollutant
    and year, taken in the order of the table: a [float64], equal to the
    arithmetic mean of these values up to the rounding of pandas. *)
Theorem media_annuale_per_anno (df : list Riga) (inq : string) :
  StronglySorted Z.lt (map fst (media_annuale df inq)) /\
  NoDup (map fst (media_annuale df inq)) /\
  (forall y, In y (map fst (media_annuale df inq)) <->
             exists r, In r df /\ inquinante r = inq /\ anno r = Some y) /\
  (forall y m, In (y, m) (media_annuale df inq) ->
     map valore (filter (dell_anno inq y) df) <> [] /\
     m = series_mean (map valore (filter (dell_anno inq y) df))) /\
  (forall y, (exists r, In r df /\ inquinante r = inq /\ anno r = Some y) ->
     In (y, series_mean (map valore (filter (dell_anno inq y) df)))
        (media_annuale df inq)).
Proof.
  pose proof (media_annuale_ordinata df inq) as Hs.
  split; [exact Hs|].
  split; [apply (ordinate_senza_ripetizioni Z Z.compare Z.compare_eq_iff); exact Hs|].
  split; [apply anni_di_media_annuale|].
  split; [|apply media_annuale_intro].
  intros y m Hin.
  destruct (in_media_annuale df inq y m Hin) as ((r & Hr & Hi & Ha) & Hm).
  split; [|exact Hm].
  apply (gruppo_non_vuoto _ _ df r Hr), dell_anno_vero; auto.
Qed.

(** ** The trend *)







(** ** The ranking of the stations *)

(** The means of all the stations of a pollutant, before sorting. *)
Lemma stazioni_di_groupby (df : list Riga) (inq n : string) :
  In n (map fst (groupby_mean String.compare (fun r => Some (nome_stazione r))
                   valore series_mean (del_inquinante inq df))) <->
  exists r, In r df /\ inquinante r = inq /\ nome_stazione r = n.
Proof.
  rewrite (in_groupby_mean_chiave string String.compare String_as_OT.cmp_eq).
  split.
  - intros (r & Hr & Hn); apply in_del_inquinante in Hr.
    exists r; intuition congruence.
  - intros (r & Hr & Hi & Hn); exists r; rewrite in_del_inquinante.
    intuition congruence.
Qed.

Lemma in_media_stazioni (df : list Riga) (inq n : string) (m : option float64) :
  In (n, m) (media_stazioni df inq) ->
  (exists r, In r df /\ inquinante r = inq /\ nome_stazione r = n) /\
  m = series_mean (map valore (filter (della_stazione inq n) df)).
Proof.
  unfold media_stazioni; intros Hin.
  apply in_firstn in Hin.
  apply (Permutation_in _ (ordina_perm _ media_decrescente _)) in Hin.
  split.
  - apply stazioni_di_groupby.
    apply in_map_iff; exists (n, m); auto.
  - apply in_groupby_mean in Hin.
    rewrite gruppo_della_stazione in Hin; exact Hin.
Qed.

(** C6.  The ranking of a pollutant has at most five entries, in
    non-increasing order of mean (a mean that is NaN comes last), one per
    station name at most; the mean of an entry is what [Series.mean()] gives
    on the values of all the rows of that pollutant and station, whatever
    their year; and a station of the pollutant that is left out is so because
    five others are listed, none with a smaller mean. *)
Theorem media_stazioni_classifica (df : list Riga) (inq : string) :
  (List.length (media_stazioni df inq) <= 5)%nat /\
  StronglySorted (fun a b => non_crescente (snd a) (snd b))
                 (media_stazioni df inq) /\
  NoDup (map fst (media_stazioni df inq)) /\
  (forall n m, In (n, m) (media_stazioni df inq) ->
     map valore (filter (della_stazione inq n) df) <> [] /\
     m = series_mean (map valore (filter (della_stazione inq n) df))) /\
  (forall n,
     (exists r, In r df /\ inquinante r = inq /\ nome_stazione r = n) ->
     ~ In n (map fst (media_stazioni df inq)) ->
     List.length (media_stazioni df inq) = 5%nat /\
     forall n' m', In (n', m') (media_stazioni df inq) ->
       non_crescente m'
         (series_mean (map valore (filter (della_stazione inq n) df)))).
Proof.
  set (G := groupby_mean String.compare (fun r => Some (nome_stazione r))
              valore series_mean (del_inquinante inq df)).
  assert (Hms : media_stazioni df inq = firstn 5 (ordina media_decrescente G))
    by reflexivity.
  pose proof (ordina_ordinata _ media_decrescente media_decrescente_totale
                media_decrescente_trans G) as Hsort.
  pose proof (ordina_perm _ media_decrescente G) as Hperm.
  assert (Hnd : NoDup (map fst (ordina media_decrescente G))).
  { apply (Permutation_NoDup (Permutation_map fst (Permutation_sym Hperm))).
    apply (ordinate_senza_ripetizioni string String.compare String_as_OT.cmp_eq).
    apply (groupby_mean_ordinato string String.compare String_as_OT.cmp_eq
             String.compare_antisym Scompare_trans). }
  split; [rewrite Hms; apply firstn_le_length|].
  split.
  { rewrite Hms; apply firstn_ordinata.
    eapply StronglySorted_impl; [|exact Hsort].
    intros a b Hab; apply media_decrescente_non_crescente; exact Hab. }
  split; [rewrite Hms, <- firstn_map; apply NoDup_firstn; exact Hnd|].
  split.
  { intros n m Hin.
    destruct (in_media_stazioni df inq n m Hin) as ((r & Hr & Hi & Hn) & Hm).
    split; [|exact Hm].
    apply (gruppo_non_vuoto _ _ df r Hr), della_stazione_vera; auto. }
  intros n Hn Hout.
  apply stazioni_di_groupby in Hn.
  rewrite (groupby_mean_chiavi) in Hn.
  apply (in_groupby_mean_intro String.compare (fun r => Some (nome_stazione r))
           valore series_mean) in Hn.
  rewrite gruppo_della_stazione in Hn.
  fold G in Hn.
  apply (Permutation_in _ (Permutation_sym Hperm)) in Hn.
  rewrite <- (firstn_skipn 5 (ordina media_decrescente G)) in Hn.
  apply in_app_or in Hn; destruct Hn as [Hn|Hn].
  { exfalso; apply Hout; rewrite Hms.
    apply in_map_iff; eexists; split; [|exact Hn]; reflexivity. }
  split.
  - rewrite Hms, length_firstn.
    assert (Hlen : (5 < List.length (ordina media_decrescente G))%nat).
    { destruct (Nat.le_gt_cases (List.length (ordina media_decrescente G)) 5) as [Hle|Hgt];
        [|exact Hgt].
      rewrite (skipn_all2 _ Hle) in Hn; contradiction. }
    lia.
  - intros n' m' Hin; rewrite Hms in Hin.
    pose proof (firstn_prima_degli_altri _ 5 _ _ _ Hsort Hin Hn) as Hle.
    apply media_decrescente_non_crescente in Hle; exact Hle.
Qed.
End ProprietaViste.

(** ** The detail of the last year *)

Lemma fold_max_spec (l : list Z) (x : Z) :
  (x <= fold_left Z.max l x)%Z /\
  (forall y, In y l -> (y <= fold_left Z.max l x)%Z) /\
  (fold_left Z.max l x = x \/ In (fold_left Z.max l x) l).
Proof.
  revert x; induction l as [|a l IH]; intros x; simpl.
  - split; [lia|]; split; [contradiction | left; reflexivity].
  - destruct (IH (Z.max x a)) as (H1 & H2 & H3).
    split; [lia|]; split.
    + intros y [<-|Hy]; [lia | auto].
    + destruct H3 as [E|Hin]; [|right; right; exact Hin].
      rewrite E; destruct (Z.max_spec x a) as [[_ ->]|[_ ->]]; auto.
Qed.

Lemma massimo_spec (l : list Z) (M : Z) :
  massimo l = Some M <-> In M l /\ forall y, In y l -> (y <= M)%Z.
Proof.
  destruct l as [|x l]; simpl.
  - split; [discriminate | intros [[] _]].
  - destruct (fold_max_spec l x) as (H1 & H2 & H3).
    split.
    + intros E; inversion E; subst; split.
      * destruct H3 as [->|Hin]; auto.
      * intros y [<-|Hy]; auto.
    + intros (Hin & Hmax); f_equal.
      assert (Hle : (fold_left Z.max l x <= M)%Z).
      { destruct H3 as [->|Hin']; apply Hmax; auto. }
      destruct Hin as [<-|Hin]; [lia|].
      specialize (H2 M Hin); lia.
Qed.

Lemma anno_corrente_spec (df : list Riga) (M : Z) :
  anno_corrente df = Some M <->
  (exists r, In r df /\ anno r = Some M) /\
  (forall r y, In r df -> anno r = Some y -> (y <= M)%Z).
Proof.
  unfold anno_corrente; rewrite massimo_spec, in_omap.
  split; intros (Hin & Hmax); (split; [exact Hin|]).
  - intros r y Hr Hy; apply Hmax, in_omap; eauto.
  - intros y Hy; apply in_omap in Hy; destruct Hy as (r & Hr & Hy); eauto.
Qed.

Lemma selezionata_vera (stazione inq : string) (ac : option Z) (r : Riga) :
  selezionata stazione inq ac r = true <->
  nome_stazione r = stazione /\ inquinante r = inq /\
  exists M, ac = Some M /\ anno r = Some M.
Proof.
  unfold selezionata; rewrite !andb_true_iff, !String.eqb_eq.
  assert (Hs : stesso_anno (anno r) ac = true <->
               exists M, ac = Some M /\ anno r = Some M).
  { destruct ac as [M|], (anno r) as [a|]; simpl; split;
      try discriminate; try (intros (M' & E1 & E2); discriminate).
    - intros E; apply Z.eqb_eq in E; subst; eauto.
    - intros (M' & E1 & E2); inversion E1; inversion E2; subst; apply Z.eqb_refl. }
  rewrite Hs; tauto.
Qed.

Lemma data_leb_non_dopo (a b : option Z) : data_leb a b = true <-> non_dopo a b.
Proof.
  destruct a, b; simpl; rewrite ?Z.leb_le; intuition discriminate.
Qed.

Lemma prima_per_data_totale (a b : Riga) :
  prima_per_data a b = true \/ prima_per_data b a = true.
Proof.
  unfold prima_per_data; rewrite !data_leb_non_dopo.
  destruct (data a), (data b); simpl; auto; lia.
Qed.

Lemma prima_per_data_trans (a b c : Riga) :
  prima_per_data a b = true -> prima_per_data b c = true ->
  prima_per_data a c = true.
Proof.
  unfold prima_per_data; rewrite !data_leb_non_dopo.
  destruct (data a), (data b), (data c); simpl; auto; try lia; contradiction.
Qed.

Lemma in_df_focus (df : list Riga) (stazione inq : string) (r : Riga) :
  In r (df_focus df stazione inq) <->
  In r df /\ selezionata stazione inq (anno_corrente df) r = true.
Proof.
  unfold df_focus; rewrite <- filter_In; split;
    apply Permutation_in; [|symmetry]; apply ordina_perm.
Qed.

(** C7.  The year of the detail is the largest year of the whole table,
    whatever the station and the pollutant; the rows of the detail are
    exactly the rows of the table (each as many times as it occurs there)
    with the given station name, the given pollutant and that year; and they
    come in ascending order of timestamp. *)
Theorem df_focus_ultimo_anno (df : list Riga) (stazione inq : string) :
  (forall M, anno_corrente df = Some M <->
     (exists r, In r df /\ anno r = Some M) /\
     (forall r y, In r df -> anno r = Some y -> (y <= M)%Z)) /\
  Permutation (df_focus df stazione inq)
    (filter (selezionata stazione inq (anno_corrente df)) df) /\
  (forall r, In r (df_focus df stazione inq) <->
     In r df /\ nome_stazione r = stazione /\ inquinante r = inq /\
     exists M, anno_corrente df = Some M /\ anno r = Some M) /\
  StronglySorted (fun a b => non_dopo (data a) (data b)) (df_focus df stazione inq).
Proof.
  split; [intros M; apply anno_corrente_spec|].
  split; [apply ordina_perm|].
  split.
  - intros r; rewrite in_df_focus, selezionata_vera; reflexivity.
  - eapply StronglySorted_impl;
      [|apply (ordina_ordinata _ prima_per_data prima_per_data_totale
                 prima_per_data_trans)].
    intros a b Hab; apply data_leb_non_dopo; exact Hab.
Qed.

(** C8.  When no row of the table has the chosen station, the chosen
    pollutant and the last year, the detail is the empty sequence and the page
    shows the "no data" warning; [dettaglio] is a total function, so nothing
    is raised. *)
Theorem dettaglio_senza_righe (df : list Riga) (stazione inq : string) :
  (forall r, In r df ->
     ~ (nome_stazione r = stazione /\ inquinante r = inq /\
        exists M, anno_corrente df = Some M /\ anno r = Some M)) ->
  df_focus df stazione inq = [] /\
  dettaglio df stazione inq
  = NessunDato "Nessun dato disponibile per la selezione effettuata.".
Proof.
  intros Hno.
  assert (E : df_focus df stazione inq = []).
  { destruct (df_focus df stazione inq) as [|r l] eqn:Ef; [reflexivity|].
    assert (Hin : In r (df_focus df stazione inq)) by (rewrite Ef; left; reflexivity).
    apply in_df_focus in Hin; destruct Hin as (Hr & Hsel).
    apply selezionata_vera in Hsel.
    exfalso; exact (Hno r Hr Hsel). }
  split; [exact E|].
  unfold dettaglio; rewrite E; reflexivity.
Qed.

(** ** Loading the yearly files *)

Lemma mapM_Ok_in_r {A B : Type} (f : A -> esito B) (l : list A) (bs : list B) (b : B) :
  mapM f l = Ok bs -> In b bs -> exists a, In a l /\ f a = Ok b.
Proof.
  intros E; apply mapM_Ok_inv in E.
  induction E as [|a b' l bs Hab _ IH]; simpl; [contradiction|].
  intros [<-|Hin]; [eauto|].
  destruct (IH Hin) as (a' & Ha' & Hf); eauto.
Qed.

Lemma mapM_Ok_in_l {A B : Type} (f : A -> esito B) (l : list A) (bs : list B) (a : A) :
  mapM f l = Ok bs -> In a l -> exists b, In b bs /\ f a = Ok b.
Proof.
  intros E; apply mapM_Ok_inv in E.
  induction E as [|a' b l bs Hab _ IH]; simpl; [contradiction|].
  intros [<-|Hin]; [eauto|].
  destruct (IH Hin) as (b' & Hb' & Hf); eauto.
Qed.

Lemma leggi_annuali_spec (d : Disco) (files : list string) :
  leggi_annuali d files
  = (map avviso_mancante (filter (mancante d) files),
     omap (file_annuale d) files).
Proof.
  induction files as [|f files IH]; simpl; [reflexivity|].
  rewrite IH; unfold mancante.
  destruct (file_annuale d f); reflexivity.
Qed.

Lemma omap_tutti_mancanti (d : Disco) (files : list string) :
  (forall f, In f files -> file_annuale d f = None) ->
  omap (file_annuale d) files = [] /\ filter (mancante d) files = files.
Proof.
  induction files as [|f files IH]; simpl; intros Hn; [auto|].
  unfold mancante at 1.
  rewrite (Hn f (or_introl eq_refl)).
  destruct IH as [-> ->]; auto.
Qed.

Lemma omap_uno_presente (d : Disco) (files : list string) (f : string) :
  In f files -> file_annuale d f <> None -> omap (file_annuale d) files <> [].
Proof.
  intros Hin Hf E.
  destruct (file_annuale d f) as [righe|] eqn:Ef; [|congruence].
  assert (Hr : In righe (omap (file_annuale d) files)) by (apply in_omap; eauto).
  rewrite E in Hr; contradiction.
Qed.

Section ProprietaCaricamento.
Context `{Pandas}.

Lemma carica_spec (files : list string) (d : Disco) :
  carica files d
  = (map avviso_mancante (filter (mancante d) files),
     pd_concat (omap (file_annuale d) files)).
Proof. unfold carica; rewrite leggi_annuali_spec; reflexivity. Qed.

Lemma prepara_dati_da_spec (files : list string) (d : Disco) :
  prepara_dati_da files d
  = (map avviso_mancante (filter (mancante d) files),
     df <- pd_concat (omap (file_annuale d) files) ;; pulisci_e_unisci d df).
Proof. unfold prepara_dati_da; rewrite carica_spec; reflexivity. Qed.

(** C1.  With none of the nine yearly files on disk, [prepara_dati] shows the
    nine warnings and then stops on the [ValueError] of [pd.concat]: no table
    is returned, whatever the station file holds. *)
Theorem prepara_dati_senza_annuali (d : Disco) :
  (forall f, In f file_json_annuali -> file_annuale d f = None) ->
  prepara_dati d
  = (map avviso_mancante file_json_annuali,
     Err (ValueError "No objects to concatenate")).
Proof.
  intros Hn; unfold prepara_dati; rewrite prepara_dati_da_spec.
  destruct (omap_tutti_mancanti d file_json_annuali Hn) as [-> ->].
  reflexivity.
Qed.
End ProprietaCaricamento.

(** ** The cleaning step *)

Section ProprietaPulizia.
Context `{Pandas}.

Lemma pulisci_riga_Err (g : Grezza) (e : Errore) :
  pulisci_riga g = Err e ->
  exists s, g_data g = Some s /\ parse_datetime s = NonValida /\ e = DateParseError s.
Proof.
  unfold pulisci_riga, to_datetime.
  destruct (g_data g) as [s|]; simpl; [|discriminate].
  destruct (parse_datetime s) eqn:Ep; simpl; try discriminate.
  intros E; inversion E; eauto.
Qed.

Lemma pulisci_riga_data_non_valida (g : Grezza) (s : string) :
  g_data g = Some s -> parse_datetime s = NonValida ->
  pulisci_riga g = Err (DateParseError s).
Proof.
  intros Hd Hp; unfold pulisci_riga, to_datetime; rewrite Hd, Hp; reflexivity.
Qed.

Lemma pulisci_riga_Ok (g : Grezza) :
  (exists d, to_datetime (g_data g) = Ok d) ->
  pulisci_riga g = Ok (normalizza g).
Proof.
  intros (d & Hd); unfold normalizza, pulisci_riga; rewrite Hd; simpl.
  destruct (to_numeric (g_valore g)); reflexivity.
Qed.

Lemma pulisci_riga_Ok_inv (g : Grezza) (o : option Misura) :
  pulisci_riga g = Ok o ->
  o = normalizza g /\ exists d, to_datetime (g_data g) = Ok d.
Proof.
  intros E; split.
  - unfold normalizza; rewrite E; destruct o; reflexivity.
  - unfold pulisci_riga in E.
    destruct (to_datetime (g_data g)) as [d|e]; [eauto | discriminate].
Qed.

Lemma normalizza_senza_valore (g : Grezza) :
  to_numeric (g_valore g) = None -> normalizza g = None.
Proof.
  intros Hv; unfold normalizza, pulisci_riga.
  destruct (to_datetime (g_data g)); simpl; [rewrite Hv|]; reflexivity.
Qed.

Lemma normalizza_Some (g : Grezza) (m : Misura) :
  normalizza g = Some m ->
  to_numeric (g_valore g) = Some (m_valore m) /\
  to_datetime (g_data g) = Ok (m_data m) /\
  m_anno m = option_map anno_di (m_data m) /\
  m_inquinante m = g_inquinante g /\
  m_stazione_id m = g_stazione_id g.
Proof.
  unfold normalizza, pulisci_riga.
  destruct (to_datetime (g_data g)) as [d|e]; simpl; [|discriminate].
  destruct (to_numeric (g_valore g)) as [v|]; [|discriminate].
  intros E; inversion E; subst; simpl; auto.
Qed.

Lemma omap_righe_pulite (df : list Grezza) (righe : list (option Misura)) :
  mapM pulisci_riga df = Ok righe ->
  omap (fun r => r) righe = omap normalizza df.
Proof.
  intros E; apply mapM_Ok_inv in E.
  induction E as [|g o df righe Hg _ IH]; simpl; [reflexivity|].
  apply pulisci_riga_Ok_inv in Hg; destruct Hg as [<- _].
  destruct (normalizza g); rewrite IH; reflexivity.
Qed.

Lemma pulizia_Ok_inv (df : list Grezza) (out : list Misura) :
  pulizia df = Ok out ->
  df <> [] /\
  (forall g, In g df -> exists d, to_datetime (g_data g) = Ok d) /\
  out = omap normalizza df.
Proof.
  unfold pulizia; destruct df as [|g0 df]; [discriminate|].
  set (l := g0 :: df).
  destruct (mapM pulisci_riga l) as [righe|e] eqn:E; simpl; [|discriminate].
  intros Eo; inversion Eo; subst out.
  split; [discriminate|]; split.
  - intros g Hg.
    destruct (mapM_Ok_in_l _ _ _ g E Hg) as (o & _ & Ho).
    apply pulisci_riga_Ok_inv in Ho; tauto.
  - exact (omap_righe_pulite l righe E).
Qed.

Lemma pulizia_Ok_intro (df : list Grezza) :
  df <> [] ->
  (forall g, In g df -> exists d, to_datetime (g_data g) = Ok d) ->
  pulizia df = Ok (omap normalizza df).
Proof.
  intros Hne Hd.
  destruct (mapM_totale pulisci_riga df) as [righe E].
  { intros g Hg; exists (normalizza g); apply pulisci_riga_Ok; auto. }
  unfold pulizia; destruct df as [|g0 df]; [congruence|].
  rewrite E; simpl; rewrite (omap_righe_pulite _ _ E); reflexivity.
Qed.

Lemma pulizia_Err_data (df : list Grezza) (g : Grezza) (s : string) :
  In g df -> g_data g = Some s -> parse_datetime s = NonValida ->
  exists g' s', In g' df /\ g_data g' = Some s' /\
                parse_datetime s' = NonValida /\
                pulizia df = Err (DateParseError s').
Proof.
  intros Hin Hd Hp.
  pose proof (pulisci_riga_data_non_valida g s Hd Hp) as Hg.
  destruct (mapM_Err_intro pulisci_riga df g _ Hin Hg) as (g' & e' & Hin' & Hg' & Em).
  destruct (pulisci_riga_Err g' e' Hg') as (s' & Hd' & Hp' & ->).
  exists g', s'; repeat split; auto.
  unfold pulizia; destruct df as [|g0 df]; [contradiction|].
  rewrite Em; reflexivity.
Qed.

(** C10, as the program has it.  The cleaning step returns a frame exactly
    when the raw frame has rows and every timestamp can be read: a value that
    is not a number never makes it raise by itself, but a row whose value is
    not a number and whose timestamp is unreadable does, like any other row
    with an unreadable timestamp.  The frame it returns holds, in order, the
    cleaned rows of the raw rows whose value is a number: a raw row whose value
    is not a number gives no row, and the rows kept are exactly the raw rows
    with a numeric value, each with that number as value, the timestamp read
    from it, and a year that is the year of that timestamp (missing when the
    timestamp is [NaT]). *)
Theorem pulizia_valori (df : list Grezza) :
  ((df <> [] /\ forall g, In g df -> exists d, to_datetime (g_data g) = Ok d)
   <-> exists out, pulizia df = Ok out) /\
  (forall out, pulizia df = Ok out ->
     out = omap normalizza df /\
     (forall g, to_numeric (g_valore g) = None -> normalizza g = None) /\
     (forall m, In m out ->
        (exists g, In g df /\ normalizza g = Some m /\
                   to_numeric (g_valore g) = Some (m_valore m)) /\
        m_anno m = option_map anno_di (m_data m)) /\
     (forall m, In m out <->
        exists g v t,
          In g df /\ to_numeric (g_valore g) = Some v /\
          to_datetime (g_data g) = Ok t /\
          m = {| m_inquinante := g_inquinante g;
                 m_stazione_id := g_stazione_id g;
                 m_data := t;
                 m_anno := option_map anno_di t;
                 m_valore := v |})).
Proof.
  split.
  - split.
    + intros (Hne & Hd); eexists; apply pulizia_Ok_intro; assumption.
    + intros (out & E); apply pulizia_Ok_inv in E; tauto.
  - intros out E; apply pulizia_Ok_inv in E; destruct E as (_ & _ & ->).
    split; [reflexivity|]; split; [exact normalizza_senza_valore|].
    split.
    + intros m Hm; apply in_omap in Hm; destruct Hm as (g & Hg & Hn).
      pose proof (normalizza_Some g m Hn) as (Hv & _ & Ha & _).
      split; [exists g; auto | exact Ha].
    + intros m; rewrite in_omap; split.
      * intros (g & Hg & Hn).
        pose proof (normalizza_Some g m Hn) as (Hv & Ht & Ha & Hi & Hs).
        exists g, (m_valore m), (m_data m).
        split; [exact Hg|]; split; [exact Hv|]; split; [exact Ht|].
        destruct m; simpl in *; subst; reflexivity.
      * intros (g & v & t & Hg & Hv & Ht & ->).
        exists g; split; [exact Hg|].
        unfold normalizza, pulisci_riga; rewrite Ht; simpl; rewrite Hv.
        reflexivity.
Qed.

(** C2, as the program has it.  A raw row whose timestamp cannot be read is
    not set aside: the cleaning step stops on the error of the date reader,
    and no frame is returned.  When a frame is returned, every row of it
    carries what the date reader made of the timestamp of its raw row, an
    instant or [NaT]; a raw row without a timestamp and with a numeric value
    is kept, with [NaT] as timestamp and no year. *)
Theorem pulizia_date (df : list Grezza) :
  (forall g s, In g df -> g_data g = Some s -> parse_datetime s = NonValida ->
     exists g' s', In g' df /\ g_data g' = Some s' /\
                   parse_datetime s' = NonValida /\
                   pulizia df = Err (DateParseError s')) /\
  (forall out, pulizia df = Ok out ->
     (forall m, In m out ->
        exists g, In g df /\ to_datetime (g_data g) = Ok (m_data m)) /\
     (forall g v, In g df -> g_data g = None ->
        to_numeric (g_valore g) = Some v ->
        exists m, In m out /\ m_data m = None /\ m_anno m = None /\ m_valore m = v)).
Proof.
  split; [intros g s; apply pulizia_Err_data|].
  intros out E; apply pulizia_Ok_inv in E; destruct E as (_ & _ & ->).
  split.
  - intros m Hm; apply in_omap in Hm; destruct Hm as (g & Hg & Hn).
    exists g; split; [exact Hg|]; apply (normalizza_Some g m Hn).
  - intros g v Hg Hd Hv.
    assert (En : exists m, normalizza g = Some m /\ m_data m = None /\
                           m_anno m = None /\ m_valore m = v).
    { unfold normalizza, pulisci_riga, to_datetime; rewrite Hd; simpl; rewrite Hv.
      eexists; split; [reflexivity|]; simpl; auto. }
    destruct En as (m & En & Hm).
    exists m; split; [apply in_omap; eauto | exact Hm].
Qed.
End ProprietaPulizia.

(** ** The join with the stations *)

Lemma in_righe_unite (df : list (Misura * Z)) (stazioni : list Stazione) (r : Riga) :
  In r (righe_unite df stazioni) <->
  exists m i s, In (m, i) df /\ In s stazioni /\ s_stazione_id s = i /\
                r = unisci m i s.
Proof.
  unfold righe_unite, corrispondenti; rewrite in_flat_map; split.
  - intros ([m i] & Hmi & Hr); simpl in Hr.
    apply in_map_iff in Hr; destruct Hr as (s & <- & Hs).
    apply filter_In in Hs; destruct Hs as (Hs & Hid); apply Z.eqb_eq in Hid.
    exists m, i, s; auto.
  - intros (m & i & s & Hmi & Hs & Hid & ->).
    exists (m, i); split; [exact Hmi|]; simpl.
    apply in_map, filter_In; split; [exact Hs | apply Z.eqb_eq; exact Hid].
Qed.

Lemma corrispondenti_nessuno (i : Z) (stazioni : list Stazione) :
  (forall s, In s stazioni -> s_stazione_id s <> i) ->
  corrispondenti i stazioni = [].
Proof.
  induction stazioni as [|s st IH]; simpl; intros Hn; [reflexivity|].
  destruct (Z.eqb_spec (s_stazione_id s) i) as [E|_].
  - exfalso; exact (Hn s (or_introl eq_refl) E).
  - apply IH; intros s' Hs'; apply Hn; auto.
Qed.

Lemma righe_unite_senza_stazione (prima dopo : list (Misura * Z)) (m : Misura)
  (i : Z) (stazioni : list Stazione) :
  (forall s, In s stazioni -> s_stazione_id s <> i) ->
  righe_unite (prima ++ (m, i) :: dopo) stazioni
  = righe_unite (prima ++ dopo) stazioni.
Proof.
  intros Hn; unfold righe_unite; rewrite !flat_map_app; simpl.
  rewrite (corrispondenti_nessuno i stazioni Hn); reflexivity.
Qed.

Lemma corrispondenti_al_piu_uno (i : Z) (stazioni : list Stazione) :
  NoDup (map s_stazione_id stazioni) ->
  List.length (corrispondenti i stazioni)
  = if existsb (fun s => Z.eqb (s_stazione_id s) i) stazioni then 1%nat else 0%nat.
Proof.
  induction stazioni as [|s st IH]; simpl; intros Hnd; [reflexivity|].
  inversion Hnd as [|? ? Hnotin Hnd']; subst.
  destruct (Z.eqb_spec (s_stazione_id s) i) as [E|_]; simpl.
  - rewrite corrispondenti_nessuno; [reflexivity|].
    intros s' Hs' E'; apply Hnotin; rewrite E, <- E'; apply in_map; exact Hs'.
  - apply IH; exact Hnd'.
Qed.

Lemma length_righe_unite (df : list (Misura * Z)) (stazioni : list Stazione) :
  NoDup (map s_stazione_id stazioni) ->
  List.length (righe_unite df stazioni)
  = List.length (filter (ha_stazione stazioni) df).
Proof.
  intros Hnd; induction df as [|[m i] df IH]; simpl; [reflexivity|].
  rewrite length_app, length_map, IH, (corrispondenti_al_piu_uno i stazioni Hnd).
  unfold ha_stazione at 2; simpl.
  destruct (existsb _ stazioni); reflexivity.
Qed.

(** C3, as the program has it.  With a station table that has at least one
    row, the join raises nothing and is an inner join on the station
    identifier: a row of the unified table is a measurement together with a
    station of the same identifier, and a measurement whose identifier is the
    identifier of no station contributes no row (taking it out of the
    measurements leaves the unified table as it is).  When, moreover, no
    identifier occurs twice in the station table, the unified table has one
    row for each measurement that has a station, so no more rows than there
    are measurements. *)
Theorem pd_merge_inner_join (df : list (Misura * Z)) (stazioni : list Stazione) :
  stazioni <> [] ->
  pd_merge df stazioni = Ok (righe_unite df stazioni) /\
  (forall r, In r (righe_unite df stazioni) <->
     exists m i s, In (m, i) df /\ In s stazioni /\ s_stazione_id s = i /\
                   r = unisci m i s) /\
  (forall prima m i dopo,
     df = prima ++ (m, i) :: dopo ->
     (forall s, In s stazioni -> s_stazione_id s <> i) ->
     pd_merge (prima ++ dopo) stazioni = Ok (righe_unite df stazioni)) /\
  (NoDup (map s_stazione_id stazioni) ->
   List.length (righe_unite df stazioni)
   = List.length (filter (ha_stazione stazioni) df) /\
   (List.length (righe_unite df stazioni) <= List.length df)%nat).
Proof.
  intros Hne.
  assert (Hm : forall l, pd_merge l stazioni = Ok (righe_unite l stazioni)).
  { intros l; unfold pd_merge; destruct stazioni; [congruence | reflexivity]. }
  split; [apply Hm|].
  split; [intros r; apply in_righe_unite|].
  split.
  - intros prima m i dopo -> Hn.
    rewrite Hm, righe_unite_senza_stazione by exact Hn; reflexivity.
  - intros Hnd; rewrite (length_righe_unite df stazioni Hnd).
    split; [reflexivity | apply filter_length_le].
Qed.

(** ** The whole of [prepara_dati] *)



Section ProprietaPrepara.
Context `{Pandas}.

Lemma in_tipizza (df : list Misura) (tip : list (Misura * Z)) (m : Misura) (i : Z) :
  tipizza df = Ok tip ->
  (In (m, i) tip <-> In m df /\ astype_int (m_stazione_id m) = Ok i).
Proof.
  unfold tipizza; intros E; split.
  - intros Hin; destruct (mapM_Ok_in_r _ _ _ _ E Hin) as (m' & Hm' & Hf).
    destruct (astype_int (m_stazione_id m')) as [i'|e] eqn:Ei; simpl in Hf;
      [|discriminate].
    inversion Hf; subst; auto.
  - intros (Hm & Ei); destruct (mapM_Ok_in_l _ _ _ m E Hm) as ([m' i'] & Hin & Hf).
    rewrite Ei in Hf; simpl in Hf; inversion Hf; subst; exact Hin.
Qed.

Lemma pulisci_e_unisci_Ok_inv (d : Disco) (df : list Grezza) (tbl : list Riga) :
  pulisci_e_unisci d df = Ok tbl ->
  exists st, leggi_stazioni d = Ok st /\
    forall r, In r tbl <->
      exists g m i s, In g df /\ normalizza g = Some m /\
                      astype_int (m_stazione_id m) = Ok i /\
                      In s st /\ s_stazione_id s = i /\ r = unisci m i s.
Proof.
  unfold pulisci_e_unisci.
  destruct (pulizia df) as [pulite|e] eqn:Ep; simpl; [|discriminate].
  destruct (leggi_stazioni d) as [st|e] eqn:Es; simpl; [|discriminate].
  destruct (tipizza pulite) as [tip|e] eqn:Et; simpl; [|discriminate].
  intros Em; exists st; split; [reflexivity|].
  assert (Etbl : tbl = righe_unite tip st).
  { unfold pd_merge in Em; destruct st; [discriminate | inversion Em; reflexivity]. }
  apply pulizia_Ok_inv in Ep; destruct Ep as (_ & _ & ->).
  intros r; rewrite Etbl, in_righe_unite; split.
  - intros (m & i & s & Hmi & Hs & Hid & ->).
    apply (in_tipizza _ _ _ _ Et) in Hmi; destruct Hmi as (Hm & Hi).
    apply in_omap in Hm; destruct Hm as (g & Hg & Hn).
    exists g, m, i, s; auto 6.
  - intros (g & m & i & s & Hg & Hn & Hi & Hs & Hid & ->).
    exists m, i, s; repeat split; auto.
    apply (in_tipizza _ _ _ _ Et); split; [|exact Hi].
    apply in_omap; eauto.
Qed.



End ProprietaPrepara.

(* ================================================================= *)
(** * Further properties of [prepara_dati] *)

Lemma righe_disponibili_non_vuote (d : Disco) (files : list string) :
  righe_disponibili d files <> [] ->
  pd_concat (omap (file_annuale d) files) = Ok (righe_disponibili d files).
Proof.
  unfold pd_concat, righe_disponibili; intros Hne.
  destruct (omap (file_annuale d) files); [exfalso; apply Hne | ]; reflexivity.
Qed.

Lemma pd_concat_presente (d : Disco) (files : list string) :
  (exists f, In f files /\ file_annuale d f <> None) ->
  pd_concat (omap (file_annuale d) files) = Ok (righe_disponibili d files).
Proof.
  intros (f & Hf & Hp); pose proof (omap_uno_presente d files f Hf Hp) as Hne.
  unfold pd_concat, righe_disponibili.
  destruct (omap (file_annuale d) files); [congruence | reflexivity].
Qed.

Section AltreProprietaPrepara.
Context `{Pandas}.

Lemma astype_int_Err (c : cella) (e : Errore) :
  astype_int c = Err e -> e = IntCastError.
Proof.
  destruct c as [|q|s]; simpl; try discriminate.
  - intros E; inversion E; reflexivity.
  - destruct (parse_int s); [discriminate | intros E; inversion E; reflexivity].
Qed.

Lemma py_int_Err (c : cella) (e : Errore) :
  py_int c = Err e -> e = IntCastError.
Proof.
  destruct c as [|q|s]; simpl; try discriminate.
  - intros E; inversion E; reflexivity.
  - destruct (parse_int s); [discriminate | intros E; inversion E; reflexivity].
Qed.

(** After a cleaning step that raises nothing, the rest of the pipeline only
    sees the cleaned rows. *)
Lemma pulisci_e_unisci_pulite (d : Disco) (df : list Grezza) :
  df <> [] ->
  (forall g, In g df -> exists t, to_datetime (g_data g) = Ok t) ->
  pulisci_e_unisci d df
  = (stazioni <- leggi_stazioni d ;;
     tipizzate <- tipizza (omap normalizza df) ;;
     pd_merge tipizzate stazioni).
Proof.
  intros Hne Hd; unfold pulisci_e_unisci.
  rewrite (pulizia_Ok_intro df Hne Hd); reflexivity.
Qed.

(** X1.  When the yearly files give at least one row and every timestamp is
    readable, a missing [dati_milano.json] ends [prepara_dati] with the
    [FileNotFoundError] of line 75, which no handler catches. *)
Theorem prepara_dati_senza_stazioni (files : list string) (d : Disco) :
  righe_disponibili d files <> [] ->
  (forall g, In g (righe_disponibili d files) ->
             exists t, to_datetime (g_data g) = Ok t) ->
  file_stazioni d = None ->
  snd (prepara_dati_da files d) = Err (FileNotFoundError "dati_milano.json").
Proof.
  intros Hne Hd Hs.
  rewrite prepara_dati_da_spec, (righe_disponibili_non_vuote d files Hne); simpl.
  rewrite (pulisci_e_unisci_pulite d _ Hne Hd).
  unfold leggi_stazioni; rewrite Hs; reflexivity.
Qed.

(** X2.  One unreadable timestamp in any row of any yearly file that is
    there ends [prepara_dati] with the error of the date reader, whatever the
    values, the station identifiers and the station file are: line 70 runs
    before the rows without a value are dropped and before the stations are
    read. *)
Theorem prepara_dati_data_illeggibile (files : list string) (d : Disco)
  (g : Grezza) (s : string) :
  In g (righe_disponibili d files) ->
  g_data g = Some s ->
  parse_datetime s = NonValida ->
  exists s', parse_datetime s' = NonValida /\
             snd (prepara_dati_da files d) = Err (DateParseError s').
Proof.
  intros Hg Hd Hp.
  assert (Hne : righe_disponibili d files <> [])
    by (intros E; rewrite E in Hg; contradiction).
  destruct (pulizia_Err_data _ g s Hg Hd Hp) as (g' & s' & _ & _ & Hp' & E).
  exists s'; split; [exact Hp'|].
  rewrite prepara_dati_da_spec, (righe_disponibili_non_vuote d files Hne); simpl.
  unfold pulisci_e_unisci; rewrite E; reflexivity.
Qed.

(** X3.  When some yearly file is there but the files that are there hold no
    record at all, [pd.concat] succeeds on frames without columns and
    [prepara_dati] ends with [KeyError: 'valore'] at line 69. *)
Theorem prepara_dati_file_vuoti (files : list string) (d : Disco) :
  (exists f, In f files /\ file_annuale d f <> None) ->
  righe_disponibili d files = [] ->
  snd (prepara_dati_da files d) = Err (KeyError "valore").
Proof.
  intros Hp He.
  rewrite prepara_dati_da_spec, (pd_concat_presente d files Hp), He.
  reflexivity.
Qed.

(** X4.  With readable timestamps and a station file that reads well, a row
    that has a numeric value but a station identifier that is not an integer
    ends [prepara_dati] with the error of the cast of line 87. *)
Theorem prepara_dati_id_non_intero (files : list string) (d : Disco)
  (st : list Stazione) (g : Grezza) (m : Misura) (e : Errore) :
  (forall g, In g (righe_disponibili d files) ->
             exists t, to_datetime (g_data g) = Ok t) ->
  leggi_stazioni d = Ok st ->
  In g (righe_disponibili d files) ->
  normalizza g = Some m ->
  astype_int (m_stazione_id m) = Err e ->
  snd (prepara_dati_da files d) = Err IntCastError.
Proof.
  intros Hd Hs Hg Hn He.
  assert (Hne : righe_disponibili d files <> [])
    by (intros E; rewrite E in Hg; contradiction).
  rewrite prepara_dati_da_spec, (righe_disponibili_non_vuote d files Hne); simpl.
  rewrite (pulisci_e_unisci_pulite d _ Hne Hd), Hs; simpl.
  assert (Hm : In m (omap normalizza (righe_disponibili d files)))
    by (apply in_omap; eauto).
  assert (Hf : (i <- astype_int (m_stazione_id m) ;; Ok (m, i)) = Err e)
    by (rewrite He; reflexivity).
  destruct (mapM_Err_intro
              (fun m => i <- astype_int (m_stazione_id m) ;; Ok (m, i))
              _ m e Hm Hf) as (m' & e' & _ & Hf' & Em).
  unfold tipizza; rewrite Em; simpl.
  destruct (astype_int (m_stazione_id m')) as [i|e''] eqn:Ei; simpl in Hf';
    [discriminate|].
  inversion Hf'; subst e''; rewrite (astype_int_Err _ _ Ei); reflexivity.
Qed.

End AltreProprietaPrepara.

(** ** The warnings *)

Lemma length_append (s t : string) :
  String.length (s ++ t) = (String.length s + String.length t)%nat.
Proof. induction s as [|c s IH]; simpl; [reflexivity | rewrite IH; reflexivity]. Qed.

Lemma append_inj_l (s1 s2 t : string) : (s1 ++ t = s2 ++ t)%string -> s1 = s2.
Proof.
  revert s2; induction s1 as [|c s1 IH]; intros [|c2 s2] E; simpl in E.
  - reflexivity.
  - apply (f_equal String.length) in E; simpl in E; rewrite length_append in E; lia.
  - apply (f_equal String.length) in E; simpl in E; rewrite length_append in E; lia.
  - inversion E; subst; f_equal; apply IH; assumption.
Qed.

Lemma avviso_mancante_inj (f1 f2 : string) :
  avviso_mancante f1 = avviso_mancante f2 -> f1 = f2.
Proof.
  unfold avviso_mancante; intros E.
  apply (append_inj_l f1 f2 " non trovato!").
  simpl in E; injection E as E; exact E.
Qed.

Lemma length_filter_mancante (d : Disco) (files : list string) :
  (List.length (filter (mancante d) files)
   + List.length (omap (file_annuale d) files) = List.length files)%nat.
Proof.
  induction files as [|f files IH]; simpl; [reflexivity|].
  unfold mancante at 1; destruct (file_annuale d f); simpl; lia.
Qed.

Section ProprietaAvvisi.
Context `{Pandas}.

(** X6.  The warnings of [prepara_dati] are shown whether or not the run
    later raises: there is one for each listed file that is missing and none
    for a file that is there (so warnings and frames loaded add up to the
    length of the list), they come in the order of the list, and two
    different files never get the same warning. *)
Theorem avvisi_di_prepara_dati (files : list string) (d : Disco) :
  fst (prepara_dati_da files d)
  = map avviso_mancante (filter (mancante d) files) /\
  (forall f, In f files ->
     (In (avviso_mancante f) (fst (prepara_dati_da files d))
      <-> file_annuale d f = None)) /\
  (List.length (fst (prepara_dati_da files d))
   + List.length (omap (file_annuale d) files) = List.length files)%nat /\
  (forall f1 f2, avviso_mancante f1 = avviso_mancante f2 -> f1 = f2).
Proof.
  rewrite prepara_dati_da_spec; simpl.
  split; [reflexivity|]; split; [|split].
  - intros f Hf; rewrite in_map_iff; split.
    + intros (f' & E & Hin); apply avviso_mancante_inj in E; subst f'.
      apply filter_In in Hin; destruct Hin as [_ Hm].
      unfold mancante in Hm; destruct (file_annuale d f); [discriminate | reflexivity].
    + intros Hn; exists f; split; [reflexivity|].
      apply filter_In; split; [exact Hf|].
      unfold mancante; rewrite Hn; reflexivity.
  - rewrite length_map; apply length_filter_mancante.
  - exact avviso_mancante_inj.
Qed.
End ProprietaAvvisi.

(** ** The station table and the unified table *)

Lemma StronglySorted_in_impl {A : Type} (R R' : A -> A -> Prop) (l : list A) :
  (forall a b, In a l -> In b l -> R a b -> R' a b) ->
  StronglySorted R l -> StronglySorted R' l.
Proof.
  intros HR Hs; induction Hs as [|x l Hs IH Hx]; constructor.
  - apply IH; intros a b Ha Hb; apply HR; right; assumption.
  - rewrite Forall_forall in *; intros y Hy.
    apply HR; [left; reflexivity | right; exact Hy | exact (Hx y Hy)].
Qed.

Section ProprietaTabella.
Context `{Pandas}.

(** X7.  The station table has one row for each feature of
    [dati_milano.json], in the order of the file, with the name of the
    feature and the integer read from its [id_amat]; one feature whose
    [id_amat] is not an integer makes the reading raise, and no station table
    is built. *)
Theorem leggi_stazioni_spec (d : Disco) :
  (forall st, leggi_stazioni d = Ok st ->
     exists features,
       file_stazioni d = Some features /\
       map s_nome_stazione st = map nome features /\
       Forall2 (fun feat s => py_int (id_amat feat) = Ok (s_stazione_id s))
               features st) /\
  (forall features feat e,
     file_stazioni d = Some features -> In feat features ->
     py_int (id_amat feat) = Err e ->
     leggi_stazioni d = Err IntCastError).
Proof.
  unfold leggi_stazioni; split.
  - intros st E.
    destruct (file_stazioni d) as [features|]; [|discriminate].
    exists features; split; [reflexivity|].
    apply mapM_Ok_inv in E.
    induction E as [|feat s features st Hf _ IH]; simpl.
    + split; [reflexivity | constructor].
    + destruct IH as [IHn IHf].
      destruct (py_int (id_amat feat)) as [i|e] eqn:Ei; simpl in Hf; [|discriminate].
      inversion Hf; subst s; simpl.
      split; [rewrite IHn; reflexivity | constructor; [exact Ei | exact IHf]].
  - intros features feat e -> Hin He.
    set (f := fun feat => i <- py_int (id_amat feat) ;;
                          Ok {| s_stazione_id := i; s_nome_stazione := nome feat |}).
    assert (Hf : f feat = Err e) by (unfold f; rewrite He; reflexivity).
    destruct (mapM_Err_intro f features feat e Hin Hf) as (feat' & e' & _ & Hf' & ->).
    unfold f in Hf'.
    destruct (py_int (id_amat feat')) as [i|e''] eqn:Ei; simpl in Hf'; [discriminate|].
    inversion Hf'; subst e''; rewrite (py_int_Err _ _ Ei); reflexivity.
Qed.

Lemma prepara_dati_da_Ok (files : list string) (d : Disco) (tbl : list Riga) :
  snd (prepara_dati_da files d) = Ok tbl ->
  pulisci_e_unisci d (righe_disponibili d files) = Ok tbl.
Proof.
  rewrite prepara_dati_da_spec; simpl.
  unfold pd_concat, righe_disponibili.
  destruct (omap (file_annuale d) files); simpl; [discriminate | auto].
Qed.

(** X8.  In every row of a table that [prepara_dati] returns, the year is
    the year of the timestamp (and is missing exactly when the timestamp is
    [NaT]), the station name is the name of a station of the station file with
    the identifier of the row, and pollutant, value and timestamp are those
    read from one raw row of a yearly file that is there. *)
Theorem prepara_dati_invarianti (files : list string) (d : Disco)
  (tbl : list Riga) :
  snd (prepara_dati_da files d) = Ok tbl ->
  exists st, leggi_stazioni d = Ok st /\
    forall r, In r tbl ->
      anno r = option_map anno_di (data r) /\
      (exists s, In s st /\ s_stazione_id s = stazione_id r /\
                 s_nome_stazione s = nome_stazione r) /\
      (exists g, In g (righe_disponibili d files) /\
                 g_inquinante g = inquinante r /\
                 to_numeric (g_valore g) = Some (valore r) /\
                 to_datetime (g_data g) = Ok (data r)).
Proof.
  intros E; apply prepara_dati_da_Ok in E.
  destruct (pulisci_e_unisci_Ok_inv d _ tbl E) as (st & Es & Hin).
  exists st; split; [exact Es|].
  intros r Hr; apply Hin in Hr.
  destruct Hr as (g & m & i & s & Hg & Hn & Hi & Hs & Hid & ->).
  destruct (normalizza_Some g m Hn) as (Hv & Hd & Ha & Hq & Hsid).
  simpl; split; [exact Ha|]; split.
  - exists s; auto.
  - exists g; auto.
Qed.

(** X9.  On a table that [prepara_dati] returns, every row of the detail of
    the last year has a timestamp, an instant of that year, and the rows come
    in non-decreasing order of these instants: no [NaT] reaches the plot. *)
Theorem df_focus_istanti (files : list string) (d : Disco) (tbl : list Riga)
  (stazione inq : string) :
  snd (prepara_dati_da files d) = Ok tbl ->
  (forall r, In r (df_focus tbl stazione inq) ->
     exists t, data r = Some t /\ anno_corrente tbl = Some (anno_di t)) /\
  StronglySorted
    (fun a b => exists ta tb, data a = Some ta /\ data b = Some tb /\ (ta <= tb)%Z)
    (df_focus tbl stazione inq).
Proof.
  intros E.
  assert (Hinv : forall r, In r tbl -> anno r = option_map anno_di (data r)).
  { apply prepara_dati_da_Ok in E.
    destruct (pulisci_e_unisci_Ok_inv d _ tbl E) as (st & _ & Hin).
    intros r Hr; apply Hin in Hr.
    destruct Hr as (g & m & i & s & _ & Hn & _ & _ & _ & ->).
    apply (normalizza_Some g m Hn). }
  assert (Hist : forall r, In r (df_focus tbl stazione inq) ->
            exists t, data r = Some t /\ anno_corrente tbl = Some (anno_di t)).
  { intros r Hr; apply in_df_focus in Hr; destruct Hr as (Hr & Hsel).
    apply selezionata_vera in Hsel; destruct Hsel as (_ & _ & M & HM & Ha).
    rewrite (Hinv r Hr) in Ha.
    destruct (data r) as [t|]; simpl in Ha; [|discriminate].
    exists t; split; [reflexivity|]; rewrite HM; symmetry; exact Ha. }
  split; [exact Hist|].
  eapply StronglySorted_in_impl;
    [|apply (ordina_ordinata _ prima_per_data prima_per_data_totale
               prima_per_data_trans)].
  intros a b Ha Hb Hab.
  destruct (Hist a Ha) as (ta & Eta & _), (Hist b Hb) as (tb & Etb & _).
  exists ta, tb; split; [exact Eta|]; split; [exact Etb|].
  unfold prima_per_data in Hab; rewrite Eta, Etb in Hab; simpl in Hab.
  apply Z.leb_le; exact Hab.
Qed.
End ProprietaTabella.

(* ================================================================= *)
(** * Further properties of the views *)

Lemma groupby_mean_senza_chiave {R K V M : Type} (cmp : K -> K -> comparison)
  (chiave : R -> option K) (val : R -> V) (mean : list V -> M)
  (prima dopo : list R) (r : R) :
  chiave r = None ->
  groupby_mean cmp chiave val mean (prima ++ r :: dopo)
  = groupby_mean cmp chiave val mean (prima ++ dopo).
Proof.
  intros Hk; unfold groupby_mean.
  rewrite !omap_app; simpl; rewrite Hk, <- omap_app.
  apply map_ext; intros k.
  rewrite !filter_app; simpl; rewrite Hk; reflexivity.
Qed.

Lemma df_focus_vuoto (df : list Riga) (stazione inq : string) :
  (forall r, In r df -> selezionata stazione inq (anno_corrente df) r = false) ->
  df_focus df stazione inq = [].
Proof.
  intros Hno.
  destruct (df_focus df stazione inq) as [|r l] eqn:Ef; [reflexivity|].
  assert (Hin : In r (df_focus df stazione inq)) by (rewrite Ef; left; reflexivity).
  apply in_df_focus in Hin; destruct Hin as (Hr & Hsel).
  rewrite (Hno r Hr) in Hsel; discriminate.
Qed.

Lemma Permutation_omap {A B : Type} (f : A -> option B) (l l' : list A) :
  Permutation l l' -> Permutation (omap f l) (omap f l').
Proof.
  induction 1 as [|x l l' _ IH|x y l|l l' l'' _ IH1 _ IH2]; simpl.
  - constructor.
  - destruct (f x); [constructor|]; exact IH.
  - destruct (f x), (f y); try reflexivity; apply perm_swap.
  - etransitivity; eassumption.
Qed.

Lemma Permutation_filter' {A : Type} (f : A -> bool) (l l' : list A) :
  Permutation l l' -> Permutation (filter f l) (filter f l').
Proof.
  induction 1 as [|x l l' _ IH|x y l|l l' l'' _ IH1 _ IH2]; simpl.
  - constructor.
  - destruct (f x); [constructor|]; exact IH.
  - destruct (f x), (f y); try reflexivity; apply perm_swap.
  - etransitivity; eassumption.
Qed.

Section ChiaviUniche.
Variable K : Type.
Variable cmp : K -> K -> comparison.
Hypothesis cmp_eq : forall a b, cmp a b = Eq <-> a = b.
Hypothesis cmp_antisym : forall a b, cmp a b = CompOpp (cmp b a).
Hypothesis cmp_trans : forall a b c, cmp a b = Lt -> cmp b c = Lt -> cmp a c = Lt.

Let minore (a b : K) : Prop := cmp a b = Lt.

Lemma minore_irrefl (a : K) : ~ minore a a.
Proof.
  unfold minore; intros E.
  assert (E' : cmp a a = Eq) by (apply cmp_eq; reflexivity); congruence.
Qed.

(** Two strictly ascending lists with the same elements are the same list. *)
Lemma ordinate_uniche (l1 l2 : list K) :
  StronglySorted minore l1 -> StronglySorted minore l2 ->
  (forall x, In x l1 <-> In x l2) -> l1 = l2.
Proof.
  intros H1; revert l2; induction H1 as [|a1 l1 Hs1 IH Ha1]; intros l2 H2 Hin.
  - destruct l2 as [|a2 l2]; [reflexivity|].
    exfalso; apply (proj2 (Hin a2)); left; reflexivity.
  - destruct H2 as [|a2 l2 Hs2 Ha2].
    + exfalso; apply (proj1 (Hin a1)); left; reflexivity.
    + rewrite Forall_forall in Ha1, Ha2.
      assert (Ea : a1 = a2).
      { destruct (proj1 (Hin a1) (or_introl eq_refl)) as [E|Hl2]; [auto|].
        destruct (proj2 (Hin a2) (or_introl eq_refl)) as [E|Hl1]; [auto|].
        exfalso; apply (minore_irrefl a1).
        exact (cmp_trans _ _ _ (Ha1 a2 Hl1) (Ha2 a1 Hl2)). }
      subst a2; f_equal; apply IH; [exact Hs2|].
      intros x; split; intros Hx.
      * destruct (proj1 (Hin x) (or_intror Hx)) as [E|Hx2]; [|exact Hx2].
        subst x; exfalso; exact (minore_irrefl a1 (Ha1 a1 Hx)).
      * destruct (proj2 (Hin x) (or_intror Hx)) as [E|Hx1]; [|exact Hx1].
        subst x; exfalso; exact (minore_irrefl a1 (Ha2 a1 Hx)).
Qed.

Lemma chiavi_perm (ks ks' : list K) :
  Permutation ks ks' -> chiavi cmp ks = chiavi cmp ks'.
Proof.
  intros Hp; apply ordinate_uniche.
  - apply (chiavi_ordinate K cmp cmp_eq cmp_antisym cmp_trans).
  - apply (chiavi_ordinate K cmp cmp_eq cmp_antisym cmp_trans).
  - intros x; rewrite !(in_chiavi K cmp cmp_eq); split; apply Permutation_in;
      [exact Hp | symmetry; exact Hp].
Qed.
End ChiaviUniche.

Lemma anno_corrente_perm (df df' : list Riga) :
  Permutation df df' -> anno_corrente df = anno_corrente df'.
Proof.
  intros Hp.
  assert (Hgen : forall a b M, Permutation a b ->
            anno_corrente a = Some M -> anno_corrente b = Some M).
  { intros a b M Hab E; apply anno_corrente_spec in E.
    destruct E as ((r & Hr & Hy) & Hmax); apply anno_corrente_spec; split.
    - exists r; split; [apply (Permutation_in _ Hab); exact Hr | exact Hy].
    - intros r' y Hr'; apply Hmax.
      apply (Permutation_in _ (Permutation_sym Hab)); exact Hr'. }
  destruct (anno_corrente df) as [M|] eqn:E.
  - symmetry; apply (Hgen df df' M Hp E).
  - destruct (anno_corrente df') as [M'|] eqn:E'; [|reflexivity].
    rewrite (Hgen df' df M' (Permutation_sym Hp) E') in E; discriminate.
Qed.

(** X11.  The pollutants offered in the sidebar are exactly the pollutants
    that occur in the table, each once, in ascending order; and likewise the
    stations offered for the detail are exactly the station names of the
    table. *)
Theorem liste_di_scelta (df : list Riga) :
  (StronglySorted (fun a b => String.compare a b = Lt) (lista_inquinanti df) /\
   NoDup (lista_inquinanti df) /\
   forall i, In i (lista_inquinanti df) <-> exists r, In r df /\ inquinante r = i) /\
  (StronglySorted (fun a b => String.compare a b = Lt) (lista_stazioni df) /\
   NoDup (lista_stazioni df) /\
   forall n, In n (lista_stazioni df) <-> exists r, In r df /\ nome_stazione r = n).
Proof.
  assert (Hgen : forall (f : Riga -> string),
    StronglySorted (fun a b => String.compare a b = Lt)
                   (chiavi String.compare (map f df)) /\
    NoDup (chiavi String.compare (map f df)) /\
    forall x, In x (chiavi String.compare (map f df)) <->
              exists r, In r df /\ f r = x).
  { intros f.
    pose proof (chiavi_ordinate string String.compare String_as_OT.cmp_eq
                  String.compare_antisym Scompare_trans (map f df)) as Hs.
    split; [exact Hs|]; split.
    - apply (ordinate_senza_ripetizioni string String.compare String_as_OT.cmp_eq).
      exact Hs.
    - intros x.
      rewrite (in_chiavi string String.compare String_as_OT.cmp_eq), in_map_iff.
      split; intros (r & A & B); exists r; auto. }
  split; apply Hgen.
Qed.

(** X14.  When some row of the table has the chosen station, the chosen
    pollutant and the last year, the detail is a plot: its points are the
    (timestamp, value) pairs of the selected rows in the order of [df_focus],
    as many as the rows that match. *)
Theorem dettaglio_con_righe (df : list Riga) (stazione inq : string) :
  (exists r, In r df /\ nome_stazione r = stazione /\ inquinante r = inq /\
             exists M, anno_corrente df = Some M /\ anno r = Some M) ->
  exists serie info,
    dettaglio df stazione inq = Grafico serie info /\
    serie = map (fun r => (data r, valore r)) (df_focus df stazione inq) /\
    List.length serie
    = List.length (filter (selezionata stazione inq (anno_corrente df)) df) /\
    serie <> [].
Proof.
  intros (r & Hr & Hsel).
  assert (Hin : In r (df_focus df stazione inq))
    by (apply in_df_focus; split; [exact Hr | apply selezionata_vera; exact Hsel]).
  pose proof (ordina_perm _ prima_per_data
                (filter (selezionata stazione inq (anno_corrente df)) df)) as Hp.
  fold (df_focus df stazione inq) in Hp.
  unfold dettaglio.
  destruct (df_focus df stazione inq) as [|x l] eqn:Ef; [contradiction|].
  do 2 eexists; split; [reflexivity|]; split; [reflexivity|]; split.
  - rewrite length_map; apply Permutation_length; exact Hp.
  - discriminate.
Qed.

(** X19.  The choices offered and the detail do not depend on the order of
    the rows: after any rearrangement the lists of pollutants and of stations
    are the same, the last year is the same, and the detail of a station and
    pollutant holds the same rows. *)
Theorem scelte_senza_ordine (df df' : list Riga) (stazione inq : string) :
  Permutation df df' ->
  lista_inquinanti df = lista_inquinanti df' /\
  lista_stazioni df = lista_stazioni df' /\
  anno_corrente df = anno_corrente df' /\
  Permutation (df_focus df stazione inq) (df_focus df' stazione inq).
Proof.
  intros Hp.
  split; [|split; [|split]].
  - apply (chiavi_perm string String.compare String_as_OT.cmp_eq
             String.compare_antisym Scompare_trans), Permutation_map; exact Hp.
  - apply (chiavi_perm string String.compare String_as_OT.cmp_eq
             String.compare_antisym Scompare_trans), Permutation_map; exact Hp.
  - apply anno_corrente_perm; exact Hp.
  - unfold df_focus; rewrite <- (anno_corrente_perm df df' Hp).
    rewrite !ordina_perm; apply Permutation_filter'; exact Hp.
Qed.

Section AltreProprietaViste.
Context `{Pandas}.

(** X10.  A row without a year (its timestamp is [NaT]) belongs to no group
    of [groupby("anno")]: the annual means of every pollutant are the same
    with and without it. *)
Theorem media_annuale_senza_anno (prima dopo : list Riga) (r : Riga)
  (inq : string) :
  anno r = None ->
  media_annuale (prima ++ r :: dopo) inq = media_annuale (prima ++ dopo) inq.
Proof.
  intros Ha; unfold media_annuale, del_inquinante.
  rewrite !filter_app; simpl.
  destruct (String.eqb (inquinante r) inq); [|reflexivity].
  apply groupby_mean_senza_chiave; exact Ha.
Qed.

(** X12.  The ranking of a pollutant is empty exactly when the pollutant is
    not among those offered in the sidebar, that is when no row of the table
    has it; its annual means are empty exactly when none of its rows has a
    year. *)
Theorem viste_vuote (df : list Riga) (inq : string) :
  (media_stazioni df inq = [] <-> ~ In inq (lista_inquinanti df)) /\
  (media_annuale df inq = [] <->
   forall r, In r df -> inquinante r = inq -> anno r = None).
Proof.
  split.
  - assert (Hl : In inq (lista_inquinanti df) <->
                 exists r, In r df /\ inquinante r = inq).
    { unfold lista_inquinanti.
      rewrite (in_chiavi string String.compare String_as_OT.cmp_eq), in_map_iff.
      split; intros (r & A & B); exists r; auto. }
    rewrite Hl; unfold media_stazioni.
    set (G := groupby_mean String.compare (fun r => Some (nome_stazione r))
                valore series_mean (del_inquinante inq df)).
    pose proof (ordina_perm _ media_decrescente G) as Hperm.
    split.
    + intros E (r & Hr & Hi).
      assert (HG : G = []).
      { destruct (ordina media_decrescente G) as [|x l] eqn:Eo;
          [|simpl in E; discriminate].
        apply Permutation_nil; exact Hperm. }
      assert (Hn : In (nome_stazione r) (map fst G))
        by (apply stazioni_di_groupby; exists r; auto).
      rewrite HG in Hn; contradiction.
    + intros Hno.
      destruct G as [|[n m] G'] eqn:EG; [reflexivity|].
      exfalso; apply Hno.
      assert (Hn : In n (map fst G)) by (rewrite EG; left; reflexivity).
      apply stazioni_di_groupby in Hn; destruct Hn as (r & Hr & Hi & _).
      exists r; auto.
  - split.
    + intros E r Hr Hi.
      destruct (anno r) as [y|] eqn:Ea; [|reflexivity].
      assert (Hy : In y (map fst (media_annuale df inq)))
        by (apply anni_di_media_annuale; exists r; auto).
      rewrite E in Hy; contradiction.
    + intros Hno.
      destruct (media_annuale df inq) as [|[y m] l] eqn:E; [reflexivity|].
      assert (Hy : In y (map fst (media_annuale df inq)))
        by (rewrite E; left; reflexivity).
      apply anni_di_media_annuale in Hy; destruct Hy as (r & Hr & Hi & Ha).
      rewrite (Hno r Hr Hi) in Ha; discriminate.
Qed.


(** X18.  The years of the annual means of a pollutant do not depend on the
    order of the rows of the table: after any rearrangement the same years
    are listed, so a trend is reported in the one case exactly when it is in
    the other.  (The means themselves are sums of floats, which may depend on
    the order.) *)
Theorem anni_senza_ordine (df df' : list Riga) (inq : string) :
  Permutation df df' ->
  map fst (media_annuale df inq) = map fst (media_annuale df' inq) /\
  (trend (media_annuale df inq) = None <->
   trend (media_annuale df' inq) = None).
Proof.
  intros Hp.
  assert (Ek : map fst (media_annuale df inq) = map fst (media_annuale df' inq)).
  { unfold media_annuale; rewrite !groupby_mean_chiavi.
    apply (chiavi_perm Z Z.compare Z.compare_eq_iff
             (fun a b => Z.compare_antisym b a) Zcompare_trans).
    apply Permutation_omap, Permutation_filter'; exact Hp. }
  split; [exact Ek|].
  assert (El : List.length (media_annuale df inq)
               = List.length (media_annuale df' inq)).
  { rewrite <- (length_map fst (media_annuale df inq)), Ek; apply length_map. }
  unfold trend; rewrite El.
  destruct (1 <? List.length (media_annuale df' inq))%nat;
    split; intros E; try discriminate; reflexivity.
Qed.

(** X20.  The year of the detail is never before a year of the annual means
    of a pollutant; and a pollutant without rows in that year, the last of
    the whole table, has no detail at any station, however recent its own
    last year is. *)
Theorem dettaglio_inquinante_fermo (df : list Riga) (inq : string) (M : Z) :
  anno_corrente df = Some M ->
  (forall y, In y (map fst (media_annuale df inq)) -> (y <= M)%Z) /\
  (~ In M (map fst (media_annuale df inq)) ->
   forall stazione,
     dettaglio df stazione inq
     = NessunDato "Nessun dato disponibile per la selezione effettuata.").
Proof.
  intros HM; pose proof (proj1 (anno_corrente_spec df M) HM) as [_ Hmax].
  split.
  - intros y Hy; apply anni_di_media_annuale in Hy.
    destruct Hy as (r & Hr & _ & Ha); exact (Hmax r y Hr Ha).
  - intros Hout stazione; unfold dettaglio.
    rewrite df_focus_vuoto; [reflexivity|].
    intros r Hr.
    destruct (selezionata stazione inq (anno_corrente df) r) eqn:Hsel;
      [|reflexivity].
    apply selezionata_vera in Hsel; destruct Hsel as (_ & Hi & M' & HM' & Ha).
    rewrite HM in HM'; inversion HM'; subst M'.
    exfalso; apply Hout, anni_di_media_annuale; exists r; auto.
Qed.
End AltreProprietaViste.

(** ** When [prepara_dati] returns, and how much *)

Lemma mapM_length {A B : Type} (f : A -> esito B) (l : list A) (bs : list B) :
  mapM f l = Ok bs -> List.length bs = List.length l.
Proof.
  intros E; apply mapM_Ok_inv in E; symmetry; exact (Forall2_length E).
Qed.

Lemma omap_length_le {A B : Type} (f : A -> option B) (l : list A) :
  (List.length (omap f l) <= List.length l)%nat.
Proof.
  induction l as [|x l IH]; simpl; [lia|].
  destruct (f x); simpl; lia.
Qed.

Lemma in_lista_inquinanti (df : list Riga) (i : string) :
  In i (lista_inquinanti df) <-> exists r, In r df /\ inquinante r = i.
Proof.
  unfold lista_inquinanti.
  rewrite (in_chiavi string String.compare String_as_OT.cmp_eq), in_map_iff.
  split; intros (r & A & B); exists r; auto.
Qed.

Lemma in_lista_stazioni (df : list Riga) (n : string) :
  In n (lista_stazioni df) <-> exists r, In r df /\ nome_stazione r = n.
Proof.
  unfold lista_stazioni.
  rewrite (in_chiavi string String.compare String_as_OT.cmp_eq), in_map_iff.
  split; intros (r & A & B); exists r; auto.
Qed.

Section ProprietaEsito.
Context `{Pandas}.

Lemma in_leggi_stazioni (d : Disco) (st : list Stazione) (s : Stazione) :
  leggi_stazioni d = Ok st -> In s st ->
  exists features feat,
    file_stazioni d = Some features /\ In feat features /\
    nome feat = s_nome_stazione s /\
    py_int (id_amat feat) = Ok (s_stazione_id s).
Proof.
  unfold leggi_stazioni; intros E Hs.
  destruct (file_stazioni d) as [features|]; [|discriminate].
  destruct (mapM_Ok_in_r _ _ _ s E Hs) as (feat & Hf & Ef).
  exists features, feat; split; [reflexivity|]; split; [exact Hf|].
  destruct (py_int (id_amat feat)) as [i|e]; simpl in Ef; [|discriminate].
  inversion Ef; subst s; simpl; auto.
Qed.

(** X22.  When no identifier occurs twice in the station table, the table
    that [prepara_dati] returns has no more rows than the yearly files
    hold: cleaning and joining only take rows away. *)
Theorem prepara_dati_non_aggiunge (files : list string) (d : Disco)
  (tbl : list Riga) (st : list Stazione) :
  snd (prepara_dati_da files d) = Ok tbl ->
  leggi_stazioni d = Ok st ->
  NoDup (map s_stazione_id st) ->
  (List.length tbl <= List.length (righe_disponibili d files))%nat.
Proof.
  intros E Es Hnd; apply prepara_dati_da_Ok in E.
  unfold pulisci_e_unisci in E.
  destruct (pulizia (righe_disponibili d files)) as [pulite|e] eqn:Ep;
    simpl in E; [|discriminate].
  rewrite Es in E; simpl in E.
  destruct (tipizza pulite) as [tip|e] eqn:Et; simpl in E; [|discriminate].
  assert (Etbl : tbl = righe_unite tip st).
  { unfold pd_merge in E; destruct st; [discriminate | inversion E; reflexivity]. }
  apply pulizia_Ok_inv in Ep; destruct Ep as (_ & _ & ->).
  rewrite Etbl, (length_righe_unite tip st Hnd).
  pose proof (filter_length_le (ha_stazione st) tip) as H1.
  pose proof (mapM_length _ _ _ Et) as H2.
  pose proof (omap_length_le normalizza (righe_disponibili d files)) as H3.
  lia.
Qed.

(** X23.  On a table that [prepara_dati] returns, every station offered
    for the detail is the name of a feature of [dati_milano.json] whose
    identifier is the identifier of some row of the table: a station without
    measurements is not offered. *)
Theorem stazioni_offerte (files : list string) (d : Disco) (tbl : list Riga)
  (n : string) :
  snd (prepara_dati_da files d) = Ok tbl ->
  In n (lista_stazioni tbl) ->
  exists features feat r,
    file_stazioni d = Some features /\ In feat features /\ nome feat = n /\
    In r tbl /\ nome_stazione r = n /\
    py_int (id_amat feat) = Ok (stazione_id r).
Proof.
  intros E Hn; apply in_lista_stazioni in Hn; destruct Hn as (r & Hr & Hnome).
  apply prepara_dati_da_Ok in E.
  destruct (pulisci_e_unisci_Ok_inv d _ tbl E) as (st & Es & Hin).
  destruct (proj1 (Hin r) Hr) as (g & m & i & s & _ & _ & _ & Hs & Hid & Er).
  destruct (in_leggi_stazioni d st s Es Hs) as (features & feat & Ef & Hfeat & Hnf & Hpi).
  exists features, feat, r.
  subst r; simpl in *; subst n.
  repeat split; auto; congruence.
Qed.
End ProprietaEsito.

(* ================================================================= *)
(** * The program on concrete files *)

Import Esempio.

(** The example of the specification: two years of PM10 at one station. *)
Example media_annuale_due_anni :
  let df := [ {| inquinante := "PM10"; stazione_id := 1; data := None;
                 anno := Some 2020%Z; valore := Finito 30;
                 nome_stazione := "Verziere" |};
              {| inquinante := "PM10"; stazione_id := 1; data := None;
                 anno := Some 2021%Z; valore := Finito 20;
                 nome_stazione := "Verziere" |} ] in
  media_annuale df "PM10"
  = [(2020%Z, Some (Finito 30)); (2021%Z, Some (Finito 20))] /\
  delta (media_annuale df "PM10") = Some (Finito (-10)) /\
  trend (media_annuale df "PM10") = Some "diminuito".
Proof. repeat split. Qed.

(** The last year is the last year of the whole table: Senato has PM10 rows
    in 2020 only, the table ends in 2023, and its detail is empty. *)
Example dettaglio_anno_globale :
  anno_corrente tabella = Some 2023%Z /\
  filter (della_stazione "PM10" "Senato") tabella <> [] /\
  dettaglio tabella "Senato" "PM10"
  = NessunDato "Nessun dato disponibile per la selezione effettuata.".
Proof. repeat split; discriminate. Qed.

(** A station identifier listed twice gives two rows for one measurement. *)
Example pd_merge_id_ripetuto :
  pd_merge [(misura_pm10, 1%Z)] [verziere; verziere_bis]
  = Ok [unisci misura_pm10 1 verziere; unisci misura_pm10 1 verziere_bis].
Proof. reflexivity. Qed.

(** C1, on a disk without yearly files. *)
Lemma prepara_dati_senza_annuali_esempio :
  (forall f, In f file_json_annuali -> file_annuale disco_senza_annuali f = None) /\
  prepara_dati disco_senza_annuali
  = (map avviso_mancante file_json_annuali,
     Err (ValueError "No objects to concatenate")).
Proof.
  split.
  - intros f _; reflexivity.
  - apply (prepara_dati_senza_annuali disco_senza_annuali).
    intros f _; reflexivity.
Defined.

(** C2: a timestamp that cannot be read stops the cleaning step, and a
    missing timestamp stays in the cleaned frame. *)
Lemma pulizia_date_controesempio :
  pulizia [grezza "PM10" 1 "ieri" "30"] = Err (DateParseError "ieri") /\
  ~ date_tollerate [grezza "PM10" 1 "ieri" "30"] /\
  ~ date_tollerate [grezza_senza_data].
Proof.
  split; [reflexivity|]; split.
  - intros (out & E & _); discriminate E.
  - intros (out & E & Hv).
    vm_compute in E; inversion E; subst out.
    destruct (Hv _ (or_introl eq_refl)) as (t & Ht); discriminate Ht.
Qed.

(** C2, on a frame with one unreadable timestamp. *)
Lemma pulizia_date_esempio :
  (In (grezza "PM10" 1 "ieri" "30") con_data_illeggibile /\
   g_data (grezza "PM10" 1 "ieri" "30") = Some "ieri" /\
   parse_datetime "ieri" = NonValida) /\
  exists g' s', In g' con_data_illeggibile /\
                g_data g' = Some s' /\ parse_datetime s' = NonValida /\
                pulizia con_data_illeggibile = Err (DateParseError s').
Proof.
  assert (Hin : In (grezza "PM10" 1 "ieri" "30") con_data_illeggibile)
    by (right; left; reflexivity).
  split; [split; [exact Hin | split; reflexivity]|].
  exact (proj1 (pulizia_date con_data_illeggibile)
               (grezza "PM10" 1 "ieri" "30") "ieri" Hin eq_refl eq_refl).
Defined.

(** C3: without stations the join raises, and with a repeated identifier it
    returns more rows than there are measurements. *)
Lemma pd_merge_controesempio :
  pd_merge [(misura_pm10, 1%Z)] [] = Err (KeyError "stazione_id") /\
  ~ unione_senza_eccezioni [(misura_pm10, 1%Z)] [] /\
  ~ unione_senza_eccezioni [(misura_pm10, 1%Z)] [verziere; verziere_bis].
Proof.
  split; [reflexivity|]; split.
  - intros (tbl & E & _); discriminate E.
  - intros (tbl & E & Hl).
    vm_compute in E; inversion E; subst tbl; simpl in Hl; lia.
Qed.

(** C3, on one station and two measurements, one of them of a station that
    is not in the table. *)
Lemma pd_merge_inner_join_esempio :
  ([verziere] <> [] /\ NoDup (map s_stazione_id [verziere])) /\
  pd_merge [(misura_pm10, 2%Z); (misura_pm10, 1%Z)] [verziere]
  = Ok [unisci misura_pm10 1 verziere] /\
  (List.length (righe_unite [(misura_pm10, 2%Z); (misura_pm10, 1%Z)] [verziere])
   <= 2)%nat.
Proof.
  assert (Hne : [verziere] <> []) by discriminate.
  assert (Hnd : NoDup (map s_stazione_id [verziere]))
    by (constructor; [intros [] | constructor]).
  destruct (pd_merge_inner_join [(misura_pm10, 2%Z); (misura_pm10, 1%Z)]
              [verziere] Hne) as (Hm & _ & _ & Hl).
  split; [split; [exact Hne | exact Hnd]|]; split.
  - exact Hm.
  - exact (proj2 (Hl Hnd)).
Defined.

(** C4, on the PM10 rows of 2020. *)
Lemma media_annuale_per_anno_esempio :
  In (2020%Z, Some (Finito 40)) (media_annuale tabella "PM10") /\
  Some (Finito 40)
  = series_mean (map valore (filter (dell_anno "PM10" 2020) tabella)).
Proof.
  assert (Hin : In (2020%Z, Some (Finito 40)) (media_annuale tabella "PM10"))
    by (left; reflexivity).
  split; [exact Hin|].
  exact (proj2 (proj1 (proj2 (proj2 (proj2 (media_annuale_per_anno tabella "PM10"))))
                  2020%Z (Some (Finito 40)) Hin)).
Defined.


(** C6, on PM10: Senato comes first. *)
Lemma media_stazioni_classifica_esempio :
  In ("Senato", Some (Finito 50)) (media_stazioni tabella "PM10") /\
  Some (Finito 50)
  = series_mean (map valore (filter (della_stazione "PM10" "Senato") tabella)).
Proof.
  assert (Hin : In ("Senato", Some (Finito 50)) (media_stazioni tabella "PM10"))
    by (left; reflexivity).
  split; [exact Hin|].
  exact (proj2 (proj1 (proj2 (proj2 (proj2
           (media_stazioni_classifica tabella "PM10")))) "Senato"
                  (Some (Finito 50)) Hin)).
Defined.

(** C7, on Verziere and PM10. *)
Lemma df_focus_ultimo_anno_esempio :
  anno_corrente tabella = Some 2023%Z /\
  forall r, In r (df_focus tabella "Verziere" "PM10") ->
    In r tabella /\ nome_stazione r = "Verziere" /\ inquinante r = "PM10" /\
    exists M, anno_corrente tabella = Some M /\ anno r = Some M.
Proof.
  split; [reflexivity|].
  intros r Hr.
  exact (proj1 (proj1 (proj2 (proj2
           (df_focus_ultimo_anno tabella "Verziere" "PM10"))) r) Hr).
Defined.

(** C8, on Senato and PM10: no row in 2023. *)
Lemma dettaglio_senza_righe_esempio :
  (forall r, In r tabella ->
     ~ (nome_stazione r = "Senato" /\ inquinante r = "PM10" /\
        exists M, anno_corrente tabella = Some M /\ anno r = Some M)) /\
  df_focus tabella "Senato" "PM10" = [] /\
  dettaglio tabella "Senato" "PM10"
  = NessunDato "Nessun dato disponibile per la selezione effettuata.".
Proof.
  assert (Hh : forall r, In r tabella ->
     ~ (nome_stazione r = "Senato" /\ inquinante r = "PM10" /\
        exists M, anno_corrente tabella = Some M /\ anno r = Some M)).
  { intros r Hr Hsel; apply selezionata_vera in Hsel.
    assert (Hall : forallb (fun r => negb (selezionata "Senato" "PM10"
                                             (anno_corrente tabella) r)) tabella
                   = true) by reflexivity.
    rewrite forallb_forall in Hall; specialize (Hall r Hr).
    rewrite Hsel in Hall; discriminate Hall. }
  split; [exact Hh|].
  exact (dettaglio_senza_righe tabella "Senato" "PM10" Hh).
Defined.


(** C10: a value that is not a number, in a row whose timestamp cannot be
    read, does not get the row dropped: the cleaning step raises. *)
Lemma pulizia_valori_controesempio :
  to_numeric (g_valore (grezza "PM10" 1 "ieri" "n.d.")) = None /\
  pulizia [grezza "PM10" 1 "ieri" "n.d."] = Err (DateParseError "ieri") /\
  ~ valori_tollerati [grezza "PM10" 1 "ieri" "n.d."].
Proof.
  split; [reflexivity|]; split; [reflexivity|].
  intros Hv.
  destruct (Hv (grezza "PM10" 1 "ieri" "n.d.") (or_introl eq_refl) eq_refl)
    as (out & E).
  discriminate E.
Qed.

(** C10, on a file with one value that is not a number. *)
Lemma pulizia_valori_esempio :
  (righe_disponibili disco ["aria20.json"] <> [] /\
   forall g, In g (righe_disponibili disco ["aria20.json"]) ->
             exists d, to_datetime (g_data g) = Ok d) /\
  (exists out, pulizia (righe_disponibili disco ["aria20.json"]) = Ok out) /\
  List.length (omap normalizza (righe_disponibili disco ["aria20.json"])) = 3%nat.
Proof.
  assert (Hh : righe_disponibili disco ["aria20.json"] <> [] /\
               forall g, In g (righe_disponibili disco ["aria20.json"]) ->
                         exists d, to_datetime (g_data g) = Ok d).
  { split; [discriminate|].
    intros g Hg; vm_compute in Hg.
    repeat (destruct Hg as [<-|Hg]; [eexists; reflexivity|]); contradiction. }
  split; [exact Hh|].
  split; [exact (proj1 (proj1 (pulizia_valori _)) Hh) | reflexivity].
Defined.

(** ** The further properties on concrete files *)

Local Ltac date_leggibili :=
  let g := fresh "g" in
  let Hg := fresh "Hg" in
  intros g Hg; vm_compute in Hg;
  repeat (destruct Hg as [<-|Hg]; [eexists; reflexivity|]); contradiction.

Local Ltac non_vuota :=
  let E := fresh "E" in intros E; vm_compute in E; discriminate E.

Lemma tabella_di_disco :
  snd (prepara_dati_da file_json_annuali disco) = Ok tabella.
Proof. vm_compute; reflexivity. Qed.

(** X1, on [disco] without its station file. *)
Lemma prepara_dati_senza_stazioni_esempio :
  file_stazioni disco_senza_stazioni = None /\
  snd (prepara_dati disco_senza_stazioni)
  = Err (FileNotFoundError "dati_milano.json").
Proof.
  split; [reflexivity|].
  apply (prepara_dati_senza_stazioni file_json_annuali disco_senza_stazioni).
  - non_vuota.
  - date_leggibili.
  - reflexivity.
Defined.

(** X2, on a yearly file with the timestamp "ieri". *)
Lemma prepara_dati_data_illeggibile_esempio :
  parse_datetime "ieri" = NonValida /\
  exists s', parse_datetime s' = NonValida /\
             snd (prepara_dati (disco_con con_data_illeggibile))
             = Err (DateParseError s').
Proof.
  split; [reflexivity|].
  apply (prepara_dati_data_illeggibile file_json_annuali
           (disco_con con_data_illeggibile) (grezza "PM10" 1 "ieri" "30") "ieri").
  - vm_compute; auto.
  - reflexivity.
  - reflexivity.
Defined.

(** X3, on a yearly file without records. *)
Lemma prepara_dati_file_vuoti_esempio :
  righe_disponibili (disco_con []) file_json_annuali = [] /\
  snd (prepara_dati (disco_con [])) = Err (KeyError "valore").
Proof.
  split; [reflexivity|].
  apply (prepara_dati_file_vuoti file_json_annuali (disco_con [])).
  - exists "aria20.json"; split; [do 5 right; left; reflexivity | discriminate].
  - reflexivity.
Defined.

(** X4, on a record whose station identifier is the text "uno". *)
Lemma prepara_dati_id_non_intero_esempio :
  astype_int (g_stazione_id grezza_id_testo) = Err IntCastError /\
  snd (prepara_dati (disco_con [grezza "PM10" 1 "2020-01-15" "30"; grezza_id_testo]))
  = Err IntCastError.
Proof.
  split; [reflexivity|].
  eapply (prepara_dati_id_non_intero file_json_annuali
            (disco_con [grezza "PM10" 1 "2020-01-15" "30"; grezza_id_testo])
            stazioni_di_disco grezza_id_testo).
  - date_leggibili.
  - reflexivity.
  - vm_compute; auto.
  - reflexivity.
  - reflexivity.
Defined.

(** X6, on [disco]: a warning for aria15.json, none for aria20.json. *)
Lemma avvisi_di_prepara_dati_esempio :
  In (avviso_mancante "aria15.json") (fst (prepara_dati disco)) /\
  ~ In (avviso_mancante "aria20.json") (fst (prepara_dati disco)).
Proof.
  destruct (avvisi_di_prepara_dati file_json_annuali disco) as (_ & Hin & _).
  split.
  - apply (Hin "aria15.json"); [left; reflexivity | reflexivity].
  - intros Hw; apply (Hin "aria20.json") in Hw;
      [discriminate Hw | do 5 right; left; reflexivity].
Defined.

(** X7, on the station file of [disco]. *)
Lemma leggi_stazioni_spec_esempio :
  leggi_stazioni disco = Ok stazioni_di_disco /\
  exists features,
    file_stazioni disco = Some features /\
    map s_nome_stazione stazioni_di_disco = map nome features /\
    Forall2 (fun feat s => py_int (id_amat feat) = Ok (s_stazione_id s))
            features stazioni_di_disco.
Proof.
  split; [reflexivity|].
  exact (proj1 (leggi_stazioni_spec disco) stazioni_di_disco eq_refl).
Defined.

(** X8, on the table of [disco]. *)
Lemma prepara_dati_invarianti_esempio :
  snd (prepara_dati disco) = Ok tabella /\
  forall r, In r tabella -> anno r = option_map anno_di (data r).
Proof.
  split; [reflexivity|].
  destruct (prepara_dati_invarianti file_json_annuali disco tabella tabella_di_disco)
    as (st & _ & Hall).
  intros r Hr; exact (proj1 (Hall r Hr)).
Defined.

(** X9, on the detail of Verziere and PM10. *)
Lemma df_focus_istanti_esempio :
  snd (prepara_dati disco) = Ok tabella /\
  forall r, In r (df_focus tabella "Verziere" "PM10") ->
    exists t, data r = Some t /\ anno_corrente tabella = Some (anno_di t).
Proof.
  split; [reflexivity|].
  exact (proj1 (df_focus_istanti file_json_annuali disco tabella
                  "Verziere" "PM10" tabella_di_disco)).
Defined.

(** X10, on the table of [disco] with one row without year. *)
Lemma media_annuale_senza_anno_esempio :
  anno riga_senza_anno = None /\
  media_annuale ([] ++ riga_senza_anno :: tabella) "PM10"
  = media_annuale ([] ++ tabella) "PM10".
Proof.
  split; [reflexivity|].
  apply (media_annuale_senza_anno [] tabella riga_senza_anno "PM10").
  reflexivity.
Defined.

(** X12, on ozone, which [disco] does not measure. *)
Lemma viste_vuote_esempio :
  ~ In "O3" (lista_inquinanti tabella) /\ media_stazioni tabella "O3" = [].
Proof.
  assert (Hno : ~ In "O3" (lista_inquinanti tabella)).
  { intros Hin; vm_compute in Hin.
    repeat (destruct Hin as [E|Hin]; [discriminate E|]); contradiction. }
  split; [exact Hno|].
  exact (proj2 (proj1 (viste_vuote tabella "O3")) Hno).
Defined.

(** X14, on Verziere and PM10, which has two rows in 2023. *)
Lemma dettaglio_con_righe_esempio :
  exists serie info,
    dettaglio tabella "Verziere" "PM10" = Grafico serie info /\
    serie = map (fun r => (data r, valore r)) (df_focus tabella "Verziere" "PM10") /\
    List.length serie
    = List.length (filter (selezionata "Verziere" "PM10" (anno_corrente tabella))
                          tabella) /\
    serie <> [].
Proof.
  apply (dettaglio_con_righe tabella "Verziere" "PM10").
  exists (nth 3 tabella riga_senza_anno).
  split; [do 3 right; left; reflexivity|].
  split; [reflexivity|]; split; [reflexivity|].
  exists 2023%Z; split; reflexivity.
Defined.

(** X18, on the table of [disco] read backwards. *)
Lemma anni_senza_ordine_esempio :
  Permutation tabella (rev tabella) /\
  map fst (media_annuale tabella "PM10")
  = map fst (media_annuale (rev tabella) "PM10").
Proof.
  assert (Hp : Permutation tabella (rev tabella)) by apply Permutation_rev.
  split; [exact Hp|].
  exact (proj1 (anni_senza_ordine tabella (rev tabella) "PM10" Hp)).
Defined.

(** X19, on the table of [disco] read backwards. *)
Lemma scelte_senza_ordine_esempio :
  Permutation tabella (rev tabella) /\
  lista_inquinanti tabella = lista_inquinanti (rev tabella) /\
  anno_corrente tabella = anno_corrente (rev tabella).
Proof.
  assert (Hp : Permutation tabella (rev tabella)) by apply Permutation_rev.
  destruct (scelte_senza_ordine tabella (rev tabella) "Verziere" "PM10" Hp)
    as (Hi & _ & Ha & _).
  split; [exact Hp|]; split; [exact Hi | exact Ha].
Defined.

(** X20, on NO2, measured in 2020 only while the table ends in 2023. *)
Lemma dettaglio_inquinante_fermo_esempio :
  anno_corrente tabella = Some 2023%Z /\
  ~ In 2023%Z (map fst (media_annuale tabella "NO2")) /\
  forall stazione,
    dettaglio tabella stazione "NO2"
    = NessunDato "Nessun dato disponibile per la selezione effettuata.".
Proof.
  assert (Hno : ~ In 2023%Z (map fst (media_annuale tabella "NO2"))).
  { intros Hin; vm_compute in Hin.
    repeat (destruct Hin as [E|Hin]; [discriminate E|]); contradiction. }
  split; [reflexivity|]; split; [exact Hno|].
  exact (proj2 (dettaglio_inquinante_fermo tabella "NO2" 2023 eq_refl) Hno).
Defined.

(** X22, on [disco]: seven records, five rows. *)
Lemma prepara_dati_non_aggiunge_esempio :
  NoDup (map s_stazione_id stazioni_di_disco) /\
  (List.length tabella <= List.length (righe_disponibili disco file_json_annuali))%nat.
Proof.
  assert (Hnd : NoDup (map s_stazione_id stazioni_di_disco)).
  { constructor; [intros [E|[]]; discriminate E|].
    constructor; [intros []|constructor]. }
  split; [exact Hnd|].
  exact (prepara_dati_non_aggiunge file_json_annuali disco tabella
           stazioni_di_disco tabella_di_disco eq_refl Hnd).
Defined.

(** X23, on Senato. *)
Lemma stazioni_offerte_esempio :
  In "Senato" (lista_stazioni tabella) /\
  exists features feat r,
    file_stazioni disco = Some features /\ In feat features /\
    nome feat = "Senato" /\ In r tabella /\ nome_stazione r = "Senato" /\
    py_int (id_amat feat) = Ok (stazione_id r).
Proof.
  assert (Hin : In "Senato" (lista_stazioni tabella)) by (left; reflexivity).
  split; [exact Hin|].
  exact (stazioni_offerte file_json_annuali disco tabella "Senato"
           tabella_di_disco Hin).
Defined.
